(** * Conversational server over a hosted completion API: [app.py]

    A shallow embedding of the request handler [main], the state codec
    ([init_state_graph] / [post_processing]) and the prompt assembly
    ([pre_processing] / [call_model]) of [app.py], together with the
    properties of the conversation-state round trip.

    Python values are embedded as a small JSON-like datatype extended with
    message objects; dictionaries are insertion-ordered association lists, as
    Python dictionaries are; exceptions are an error monad over the process
    heap on which [MemorySaver] objects are allocated. *)

From Stdlib Require Import ZArith Ascii String List Lia Bool.
From stdpp Require Import base option countable gmap strings list.

Local Open Scope string_scope.
Local Open Scope list_scope.

Set Warnings "-register-all".

(** ** Python values *)

(** The three message classes of [langchain_core.messages] that the module
    imports. *)
Inductive role : Type := Human | AI | System.

Record message : Type := Msg { msg_role : role; content : string }.

Inductive value : Type :=
| VNone
| VBool (b : bool)
| VInt (z : Z)
| VStr (s : string)
| VList (l : list value)
| VDict (d : list (string * value))
| VMsg (m : message).

Definition pydict : Type := list (string * value).

Definition role_eqb (a b : role) : bool :=
  match a, b with
  | Human, Human | AI, AI | System, System => true
  | _, _ => false
  end.

(** Exceptions raised while a request is handled.  [Abort n] is Flask's
    [abort(n)]; every other exception is unhandled by the module. *)
Inductive exn : Type :=
| Abort (code : nat)
| KeyError (k : string)
| TypeError
| AttributeError
| IndexError
| ValidationError
| TrimmingInfeasible
| RemoteUnavailable.

(** Truth value of a Python object, as used by [if history:] and
    [payload and ...]. *)
Definition truthy (v : value) : bool :=
  match v with
  | VNone => false
  | VBool b => b
  | VInt z => negb (Z.eqb z 0)
  | VStr s => negb (String.eqb s "")
  | VList l => match l with [] => false | _ => true end
  | VDict d => match d with [] => false | _ => true end
  | VMsg _ => true
  end.

(** *** Dictionaries *)

Fixpoint dict_get (k : string) (d : pydict) : option value :=
  match d with
  | [] => None
  | (k', v) :: d' => if String.eqb k k' then Some v else dict_get k d'
  end.

Definition dict_has (k : string) (d : pydict) : bool :=
  match dict_get k d with Some _ => true | None => false end.

(** [d[k] = v]: an existing key keeps its position, a new key goes last. *)
Fixpoint dict_set (k : string) (v : value) (d : pydict) : pydict :=
  match d with
  | [] => [(k, v)]
  | (k', v') :: d' =>
      if String.eqb k k' then (k, v) :: d' else (k', v') :: dict_set k v d'
  end.

Definition dict_remove (k : string) (d : pydict) : pydict :=
  List.filter (fun kv => negb (String.eqb k (fst kv))) d.

(** [del d[k]]: raises [KeyError] when the key is absent. *)
Definition dict_del (k : string) (d : pydict) : exn + pydict :=
  if dict_has k d then inr (dict_remove k d) else inl (KeyError k).

(** [v[k]] for a string subscript [k]. *)
Definition subscript (v : value) (k : string) : exn + value :=
  match v with
  | VDict d => match dict_get k d with
               | Some x => inr x
               | None => inl (KeyError k)
               end
  | _ => inl TypeError
  end.

(** [v[k] = x] for a string subscript [k]. *)
Definition set_item (v : value) (k : string) (x : value) : exn + value :=
  match v with
  | VDict d => inr (VDict (dict_set k x d))
  | _ => inl TypeError
  end.

(** [del v[k]] for a string subscript [k]. *)
Definition del_item (v : value) (k : string) : exn + value :=
  match v with
  | VDict d => match dict_del k d with
               | inr d' => inr (VDict d')
               | inl e => inl e
               end
  | _ => inl TypeError
  end.

Definition is_str (k : string) (v : value) : bool :=
  match v with VStr s => String.eqb k s | _ => false end.

Fixpoint is_infix (k s : string) : bool :=
  if String.prefix k s then true
  else match s with
       | EmptyString => false
       | String _ s' => is_infix k s'
       end.

(** [k in v] for a string [k]: key membership in a dictionary, element
    membership in a list, substring test in a string, [TypeError] on a
    value that is not a container. *)
Definition contains (k : string) (v : value) : exn + bool :=
  match v with
  | VDict d => inr (dict_has k d)
  | VList l => inr (existsb (is_str k) l)
  | VStr s => inr (is_infix k s)
  | _ => inl TypeError
  end.

(** A Python [str] is a sequence of code points; a Rocq string holds its
    UTF-8 bytes.  A code point is a byte that is no continuation byte
    ([10xxxxxx]) together with the continuation bytes after it. *)
Definition is_cont (c : ascii) : bool :=
  match c with
  | Ascii _ _ _ _ _ _ b6 b7 => b7 && negb b6
  end.

(** The continuation bytes that open a string, kept apart, and the code
    points after them. *)
Fixpoint split_points (s : string) : string * list string :=
  match s with
  | EmptyString => (EmptyString, [])
  | String c s' =>
      let '(k, points) := split_points s' in
      if is_cont c then (String c k, points)
      else (EmptyString, String c k :: points)
  end.

Definition code_points (s : string) : list string :=
  let '(k, points) := split_points s in
  match k with
  | EmptyString => points
  | _ => k :: points
  end.

Definition join (points : list string) : string :=
  fold_right String.append EmptyString points.

Definition chars (s : string) : list value := map VStr (code_points s).

(** Iteration order of [enumerate(v)]: the items of a list, the characters of
    a string, the keys of a dictionary. *)
Definition py_iter (v : value) : exn + list value :=
  match v with
  | VList l => inr l
  | VStr s => inr (chars s)
  | VDict d => inr (map (fun kv => VStr (fst kv)) d)
  | _ => inl TypeError
  end.

(** ** Messages *)

Definition HumanMessage (text : string) : message := Msg Human text.
Definition AIMessage (text : string) : message := Msg AI text.

(** ** The error monad over the process heap *)

(** Thread identifiers under which a checkpointer files its snapshots: the
    hashable scalars a JSON document can put under [thread_id].  [True] and
    [False] hash and compare as [1] and [0]. *)
Inductive key : Type := KStr (s : string) | KInt (z : Z) | KNone.

#[global] Instance key_eq_dec : EqDecision key.
Proof. solve_decision. Defined.

Definition key_enc (k : key) : string + (Z + unit) :=
  match k with
  | KStr s => inl s
  | KInt z => inr (inl z)
  | KNone => inr (inr tt)
  end.

Definition key_dec (x : string + (Z + unit)) : key :=
  match x with
  | inl s => KStr s
  | inr (inl z) => KInt z
  | inr (inr _) => KNone
  end.

#[global] Instance key_countable : Countable key.
Proof.
  apply (inj_countable' key_enc key_dec). intros []; reflexivity.
Defined.

(** The tuple a checkpointer returns; the module reads its first four
    components. *)
Record snapshot : Type := Snapshot {
  snap_config : value;
  snap_checkpoint : value;
  snap_metadata : value;
  snap_version : value
}.

(** One [MemorySaver] object: its snapshots by thread identifier. *)
Abbreviation saver := (gmap key snapshot).

(** The objects allocated by the process so far, by address. *)
Abbreviation heap := (list (gmap key snapshot)).

Definition M (A : Type) : Type := heap -> heap * (exn + A).

Definition ret {A} (a : A) : M A := fun h => (h, inr a).
Definition raise {A} (e : exn) : M A := fun h => (h, inl e).
Definition bind {A B} (m : M A) (f : A -> M B) : M B :=
  fun h => match m h with
           | (h', inr a) => f a h'
           | (h', inl e) => (h', inl e)
           end.
Definition lift {A} (x : exn + A) : M A := fun h => (h, x).

Notation "'let!' x ':=' m 'in' k" := (bind m (fun x => k))
  (at level 10, x name, m at level 100, k at level 200, only parsing).

(** Bind of the plain error type, for the code that touches no object. *)
Definition ebind {A B} (x : exn + A) (f : A -> exn + B) : exn + B :=
  match x with inr a => f a | inl e => inl e end.

Notation "'let?' x ':=' m 'in' k" := (ebind m (fun x => k))
  (at level 10, x name, m at level 100, k at level 200, only parsing).

Fixpoint emap {A B} (f : A -> exn + B) (l : list A) : exn + list B :=
  match l with
  | [] => inr []
  | a :: l' => let? b := f a in let? bs := emap f l' in inr (b :: bs)
  end.

Fixpoint skip_cont (s : string) : string :=
  match s with
  | String c s' => if is_cont c then skip_cont s' else s
  | EmptyString => EmptyString
  end.

(** [s[n:]]: the string without its first [n] code points. *)
Fixpoint str_drop (n : nat) (s : string) : string :=
  match n, s with
  | O, _ => s
  | S n', String _ s' => str_drop n' (skip_cont s')
  | S _, EmptyString => EmptyString
  end.

(** [l[-1]] *)
Definition last_item (l : list value) : exn + value :=
  match last l with Some v => inr v | None => inl IndexError end.

Definition as_message (v : value) : exn + message :=
  match v with VMsg m => inr m | _ => inl AttributeError end.

(** The message objects of a list value; [obj.content] raises on any other
    object. *)
Definition as_messages (v : value) : exn + list message :=
  let? items := py_iter v in emap as_message items.

(** ** The checkpointer *)

Definition hash_key (v : value) : exn + key :=
  match v with
  | VStr s => inr (KStr s)
  | VInt z => inr (KInt z)
  | VBool b => inr (KInt (if b then 1 else 0)%Z)
  | VNone => inr KNone
  | _ => inl TypeError
  end.

Definition thread_of (config : value) : exn + key :=
  let? c := subscript config "configurable" in
  let? t := subscript c "thread_id" in
  hash_key t.

(** Modelled from the spec: the constructor [MemorySaver()] of langgraph,
    which is not part of the repository.  It returns a fresh snapshot
    mechanism: a new, empty object at the next free address. *)
Definition MemorySaver : M nat :=
  fun h => (h ++ [(∅ : saver)], inr (length h)).

(** Modelled from the spec: [MemorySaver.put] of langgraph, which is not part
    of the repository.  It files the four components in the snapshot store
    under the session identifier of [config]. *)
Definition saver_put (memory : nat) (config checkpoint metadata new_version : value)
  : M unit :=
  fun h =>
    match thread_of config with
    | inl e => (h, inl e)
    | inr k =>
        match h !! memory with
        | Some s =>
            (<[memory := <[k := Snapshot config checkpoint metadata new_version]> s]> h,
             inr tt)
        | None => (h, inl AttributeError)
        end
    end.

(** Modelled from the spec: [MemorySaver.get_tuple] of langgraph, which is not
    part of the repository.  It reads back the latest tuple filed under the
    session identifier of [config], or [None]. *)
Definition saver_get_tuple (memory : nat) (config : value) : M (option snapshot) :=
  fun h =>
    match thread_of config with
    | inl e => (h, inl e)
    | inr k =>
        match h !! memory with
        | Some s => (h, inr (s !! k))
        | None => (h, inl AttributeError)
        end
    end.

(** ** The service *)

Definition graph_config : value :=
  VDict [("configurable", VDict [("thread_id", VStr "1")])].

Definition system_instruction : string :=
  "You are a friendly alien, full of wisdom and goodness. Answer all questions to the best of your ability.".

(** A JSON response, or an error page without a JSON body. *)
Record http_response : Type := Response {
  status : nat;
  body : option pydict
}.

Section Service.

(** The remote completion behind [ChatGroq.invoke]: the reply text for a
    prompt, or nothing when the call fails. *)
Variable chat_invoke : list message -> option string.

(** The tokenizer of the remote model, handed to the trimmer as
    [token_counter=model]. *)
Variable token_counter : list message -> nat.

(** The pretty printer of langchain's messages, [pretty_repr], which is
    not part of the repository. *)
Variable pretty_repr : message -> string.

(** *** Trimming *)

(** The longest suffix of the turns that starts on [start_on] and whose
    token count, together with the kept [head], is within budget. *)
Fixpoint last_window (max_tokens : nat) (start_on : role)
    (head msgs : list message) : option (list message) :=
  match msgs with
  | [] => None
  | m :: rest =>
      if role_eqb (msg_role m) start_on
         && Nat.leb (token_counter (head ++ msgs)) max_tokens
      then Some msgs
      else last_window max_tokens start_on head rest
  end.

(** The system instruction that opens a history, when it is to be kept,
    and the turns after it. *)
Definition system_head (include_system : bool) (msgs : list message)
  : list message * list message :=
  match msgs with
  | m :: rest =>
      if include_system && role_eqb (msg_role m) System
      then ([m], rest) else ([], msgs)
  | [] => ([], [])
  end.

(** Modelled from the spec: [trim_messages] of langchain with
    [strategy="last"] and [allow_partial=False], which is not part of the
    repository.  It keeps the most recent whole turns within the budget,
    always includes the system instruction when the history opens with
    one, starts the kept window on [start_on], and fails with
    [TrimmingInfeasible] when no such window exists. *)
Definition trim_messages (max_tokens : nat) (include_system : bool)
    (start_on : role) (msgs : list message) : exn + list message :=
  let '(head, turns) := system_head include_system msgs in
  match last_window max_tokens start_on head turns with
  | Some w => inr (head ++ w)
  | None => inl TrimmingInfeasible
  end.

(** *** [pre_processing] and [call_model] *)

Definition pre_processing (state_messages : list message)
  : exn + list message :=
  let? trimmed_messages := trim_messages 500 true Human state_messages in
  inr (Msg System system_instruction :: trimmed_messages).

Definition call_model (state_messages : list message) : exn + message :=
  let? prompt := pre_processing state_messages in
  match chat_invoke prompt with
  | Some response => inr (AIMessage response)
  | None => inl RemoteUnavailable
  end.

(** *** The compiled state graph *)

Definition checkpoint_messages (checkpoint : value) : exn + list message :=
  let? channel_values := subscript checkpoint "channel_values" in
  let? messages := subscript channel_values "messages" in
  as_messages messages.

Definition with_messages (checkpoint : value) (msgs : list message)
  : exn + value :=
  let? channel_values := subscript checkpoint "channel_values" in
  let? channel_values' :=
    set_item channel_values "messages" (VList (map VMsg msgs)) in
  set_item checkpoint "channel_values" channel_values'.

Definition empty_checkpoint : value := VDict [("channel_values", VDict [])].

Definition step_metadata (reply : message) : value :=
  VDict [("source", VStr "loop");
         ("writes", VDict [("model", VDict [("messages", VMsg reply)])])].

(** Modelled from the spec: [invoke] of the compiled langgraph graph
    [START -> "model"], which is not part of the repository.  It loads the
    turns committed under [config], adds the new input as a Human turn,
    runs the node [call_model], appends the returned Assistant turn and
    commits the result under [config] with fresh bookkeeping that carries
    the pending writes. *)
Definition invoke (llm_handle : nat) (input config : value) : M value :=
  let! prior := saver_get_tuple llm_handle config in
  let! committed := lift (match prior with
                          | Some t => checkpoint_messages (snap_checkpoint t)
                          | None => inr []
                          end) in
  let! new_input := lift (subscript input "messages") in
  let! human := lift (match new_input with
                      | VStr text => inr (HumanMessage text)
                      | _ => inl ValidationError
                      end) in
  let state_messages := committed ++ [human] in
  let! reply := lift (call_model state_messages) in
  let messages := state_messages ++ [reply] in
  let base := match prior with
              | Some t => snap_checkpoint t
              | None => empty_checkpoint
              end in
  let! checkpoint := lift (with_messages base messages) in
  let new_version := match prior with
                     | Some t => snap_version t
                     | None => VNone
                     end in
  let! _ := saver_put llm_handle config checkpoint
              (step_metadata reply) new_version in
  ret (VDict [("messages", VList (map VMsg messages))]).

(** *** [init_state_graph] *)

(** [HumanMessage(content=...)] / [AIMessage(content=...)] for a string.
    The messages of this embedding carry a text; what langchain's
    constructors make of a prompt that is not a string (they accept lists
    of content blocks and refuse other values) is not embedded, and the
    comprehension stops on such a prompt. *)
Definition new_message (r : role) (prompt : value) : exn + message :=
  match prompt with
  | VStr text => inr (Msg r text)
  | _ => inl ValidationError
  end.

(** The comprehension over [enumerate(history['prompt_list'])], from index
    [idx] on. *)
Fixpoint forge_messages (idx : nat) (prompts : list value)
  : exn + list message :=
  match prompts with
  | [] => inr []
  | prompt :: rest =>
      let? m := new_message (if Nat.eqb (idx mod 2) 0 then Human else AI)
                  prompt in
      let? ms := forge_messages (S idx) rest in
      inr (m :: ms)
  end.

(** The compiled graph is known by the address of its checkpointer. *)
Definition init_state_graph (history : value) : M nat :=
  let! memory := MemorySaver in
  let! _ :=
    (if truthy history then
       let! prompt_list := lift (subscript history "prompt_list") in
       let! prompts := lift (py_iter prompt_list) in
       let! message_objects := lift (forge_messages 0 prompts) in
       let! checkpoint := lift (subscript history "checkpoint") in
       let! checkpoint' := lift (with_messages checkpoint message_objects) in
       let! config := lift (subscript history "config") in
       let! metadata := lift (subscript history "metadata") in
       let! new_version := lift (subscript history "new_version") in
       saver_put memory config checkpoint' metadata new_version
     else ret tt) in
  ret memory.

(** *** [post_processing] *)

Definition snapshot_history (raw_memory : snapshot) : exn + pydict :=
  let config := snap_config raw_memory in
  let checkpoint := snap_checkpoint raw_memory in
  let metadata := snap_metadata raw_memory in
  let new_version := snap_version raw_memory in
  let? channel_values := subscript checkpoint "channel_values" in
  let? message_objects := subscript channel_values "messages" in
  let? objs := as_messages message_objects in
  let prompt_list := VList (map (fun obj => VStr (content obj)) objs) in
  let? channel_values' := del_item channel_values "messages" in
  let? checkpoint' := set_item checkpoint "channel_values" channel_values' in
  let? metadata' := del_item metadata "writes" in
  inr [("config", config);
       ("checkpoint", checkpoint');
       ("prompt_list", prompt_list);
       ("metadata", metadata');
       ("new_version", new_version)].

(** [llm_response["messages"][-1].pretty_repr()[82:]] *)
Definition response_text (llm_response : value) : exn + string :=
  let? messages := subscript llm_response "messages" in
  let? newest := match messages with
                 | VList l => last_item l
                 | _ => inl TypeError
                 end in
  let? reply := as_message newest in
  inr (str_drop 82 (pretty_repr reply)).

Definition post_processing (llm_response : value) (llm_handle : nat)
    (graph_config : value) : M pydict :=
  let! raw_memory := saver_get_tuple llm_handle graph_config in
  match raw_memory with
  | None => raise TypeError
  | Some t =>
      let! history := lift (snapshot_history t) in
      let! response := lift (response_text llm_response) in
      ret [("response", VStr response); ("history", VDict history)]
  end.

(** *** [main] *)

(** [get_json] is the outcome of [request.get_json()], which is Flask's:
    the parsed JSON body, of any JSON type, or the HTTP error with which
    Flask turns away a request that has no JSON body or one that does not
    parse (415 or 400, depending on the request and on the version). *)
Definition main (get_json : exn + value) : M pydict :=
  let! payload := lift get_json in
  let! present := lift (if truthy payload
                        then contains "human_input" payload
                        else inr false) in
  if negb present then raise (Abort 400)
  else
    let! resume := lift (contains "history" payload) in
    let! llm_handle :=
      (if resume
       then let! history := lift (subscript payload "history") in
            init_state_graph history
       else init_state_graph VNone) in
    let! human_input := lift (subscript payload "human_input") in
    let! llm_response :=
      invoke llm_handle (VDict [("messages", human_input)]) graph_config in
    post_processing llm_response llm_handle graph_config.

(** What Flask sends for the outcome of the view function: the JSON of a
    returned dictionary, the page of an HTTP error raised by [abort] or by
    [get_json], or an internal server error for an exception nobody
    handled. *)
Definition dispatch (get_json : exn + value) (h : heap)
  : heap * http_response :=
  match main get_json h with
  | (h', inr d) => (h', Response 200 (Some d))
  | (h', inl (Abort code)) => (h', Response code None)
  | (h', inl _) => (h', Response 500 None)
  end.

(** *** The same steps as functions of the checkpointer's contents *)

(** The snapshot that [init_state_graph] forges from a client history, and
    the thread under which it is filed. *)
Definition forged (history : value) : exn + (key * snapshot) :=
  let? prompt_list := subscript history "prompt_list" in
  let? prompts := py_iter prompt_list in
  let? message_objects := forge_messages 0 prompts in
  let? checkpoint := subscript history "checkpoint" in
  let? checkpoint' := with_messages checkpoint message_objects in
  let? config := subscript history "config" in
  let? metadata := subscript history "metadata" in
  let? new_version := subscript history "new_version" in
  let? k := thread_of config in
  inr (k, Snapshot config checkpoint' metadata new_version).

(** The contents of the checkpointer that [init_state_graph] returns. *)
Definition restored (history : value) : exn + saver :=
  if truthy history
  then let? ks := forged history in inr ({[ fst ks := snd ks ]} : saver)
  else inr (∅ : saver).

(** The checkpoint left by [with_messages]: the message slot of
  [channel_values] holds the turns, everything else stays in place. *)
Definition slotted (d cvd : pydict) (msgs : list message) : value :=
VDict (dict_set "channel_values"
         (VDict (dict_set "messages" (VList (map VMsg msgs)) cvd)) d).

Definition texts (msgs : list message) : value :=
VList (map (fun obj => VStr (content obj)) msgs).

(** One run of the graph on the contents of its checkpointer. *)
Definition step (s : saver) (input config : value) : exn + (saver * value) :=
  let? k := thread_of config in
  let prior := s !! k in
  let? committed := match prior with
                    | Some t => checkpoint_messages (snap_checkpoint t)
                    | None => inr []
                    end in
  let? new_input := subscript input "messages" in
  let? human := match new_input with
                | VStr text => inr (HumanMessage text)
                | _ => inl ValidationError
                end in
  let? reply := call_model (committed ++ [human]) in
  let messages := (committed ++ [human]) ++ [reply] in
  let? checkpoint := with_messages (match prior with
                                    | Some t => snap_checkpoint t
                                    | None => empty_checkpoint
                                    end) messages in
  inr (<[k := Snapshot config checkpoint (step_metadata reply)
               (match prior with
                | Some t => snap_version t
                | None => VNone
                end)]> s,
       VDict [("messages", VList (map VMsg messages))]).

(** What [post_processing] returns for the contents of the checkpointer. *)
Definition processed (s : saver) (llm_response config : value)
  : exn + pydict :=
  let? k := thread_of config in
  match s !! k with
  | None => inl TypeError
  | Some t =>
      let? history := snapshot_history t in
      let? response := response_text llm_response in
      inr [("response", VStr response); ("history", VDict history)]
  end.

(** The objects a request allocates and what the view function returns or
    raises, whatever the heap it starts from. *)
Definition served (payload : value) : list saver * (exn + pydict) :=
  match (if truthy payload then contains "human_input" payload
         else inr false) with
  | inl e => ([], inl e)
  | inr false => ([], inl (Abort 400))
  | inr true =>
      match (let? resume := contains "history" payload in
             if resume : bool then subscript payload "history"
             else inr VNone) with
      | inl e => ([], inl e)
      | inr history =>
          match restored history with
          | inl e => ([∅], inl e)
          | inr s =>
              match (let? human_input := subscript payload "human_input" in
                     step s (VDict [("messages", human_input)])
                       graph_config) with
              | inl e => ([s], inl e)
              | inr (s', r) => ([s'], processed s' r graph_config)
              end
          end
      end
  end.

Definition committed_of (s : saver) (k : key) : exn + list message :=
  match s !! k with
  | Some t => checkpoint_messages (snap_checkpoint t)
  | None => inr []
  end.

Definition history_of (pd : pydict) : value :=
  match dict_get "history" pd with Some h => h | None => VNone end.

(** The body of a successful response, from the turns committed before
    the request, the new input, the reply, and the bookkeeping. *)
Definition success_body (d cvd : pydict) (nv : value)
    (committed : list message) (text : string) (reply : message) : pydict :=
  [("response", VStr (str_drop 82 (pretty_repr reply)));
   ("history",
    VDict [("config", graph_config);
           ("checkpoint",
            VDict (dict_set "channel_values"
                     (VDict (dict_remove "messages" cvd)) d));
           ("prompt_list",
            texts ((committed ++ [HumanMessage text]) ++ [reply]));
           ("metadata", VDict [("source", VStr "loop")]);
           ("new_version", nv)])].

End Service.

(** ** Sample collaborators *)

(** A remote model that answers every prompt by echoing its newest turn. *)
Definition echo_chat (prompt : list message) : option string :=
  Some (String.append "re:" (match last prompt with
                             | Some m => content m
                             | None => ""
                             end)).

(** A remote model that is unreachable. *)
Definition down_chat (prompt : list message) : option string := None.

(** A tokenizer that counts one token per character. *)
Definition char_counter (msgs : list message) : nat :=
  list_sum (map (fun m => String.length (content m)) msgs).

Definition rule (n : nat) : string := string_of_list_ascii (repeat "="%char n).

Definition newline : string := String (ascii_of_nat 10) EmptyString.

(** The title line of langchain's pretty printer, eighty columns wide,
    followed by an empty line. *)
Definition langchain_title (r : role) : string :=
  match r with
  | Human => rule 32 ++ " Human Message " ++ rule 33 ++ newline ++ newline
  | AI => rule 34 ++ " Ai Message " ++ rule 34 ++ newline ++ newline
  | System => rule 32 ++ " System Message " ++ rule 32 ++ newline ++ newline
  end%string.

Definition bytes (l : list nat) : string :=
  string_of_list_ascii (map ascii_of_nat l).

(** The code points for which Python's [str.isspace] holds. *)
Definition space_points : list string :=
  map bytes
    [[9]; [10]; [11]; [12]; [13]; [28]; [29]; [30]; [31]; [32];
     [194; 133]; [194; 160]; [225; 154; 128];
     [226; 128; 128]; [226; 128; 129]; [226; 128; 130]; [226; 128; 131];
     [226; 128; 132]; [226; 128; 133]; [226; 128; 134]; [226; 128; 135];
     [226; 128; 136]; [226; 128; 137]; [226; 128; 138];
     [226; 128; 168]; [226; 128; 169]; [226; 128; 175];
     [226; 129; 159]; [227; 128; 128]].

Definition is_space_point (p : string) : bool :=
  existsb (String.eqb p) space_points.

Fixpoint lstrip_points (points : list string) : list string :=
  match points with
  | p :: rest => if is_space_point p then lstrip_points rest else points
  | [] => []
  end.

(** [s.strip()] *)
Definition py_strip (s : string) : string :=
  join (rev (lstrip_points (rev (lstrip_points (code_points s))))).

(** langchain's pretty printer on messages without name and tool calls:
    the title line, an empty line and the text, the whole stripped of
    surrounding white space for an assistant message. *)
Definition langchain_pretty_repr (m : message) : string :=
  match msg_role m with
  | AI => py_strip (String.append (langchain_title AI) (content m))
  | r => String.append (langchain_title r) (content m)
  end.

(** A remote model that pads its answer with white space. *)
Definition padded_chat (prompt : list message) : option string :=
  Some "Hi  ".

Definition hello : value := VDict [("human_input", VStr "Hello")].

(** ** Roles by position *)

(** Index [i] holds a Human turn iff [i] is even, an Assistant turn iff [i]
    is odd. *)
Definition parity_roles (msgs : list message) : Prop :=
  forall (i : nat) (m : message),
    msgs !! i = Some m ->
    (msg_role m = Human <-> Nat.even i = true)
    /\ (msg_role m = AI <-> Nat.odd i = true).

(** The turns alternate Human, Assistant, when the first of them sits at
    index [idx]. *)
Fixpoint alternates (idx : nat) (msgs : list message) : bool :=
  match msgs with
  | [] => true
  | m :: rest =>
      role_eqb (msg_role m) (if Nat.even idx then Human else AI)
      && alternates (S idx) rest
  end.

(** The turns from which a request snapshots its [prompt_list]: those
    committed under thread ["1"] in the checkpointer it allocated. *)
Definition snapshot_turns (h : heap) : exn + list message :=
  match last h with
  | Some s => committed_of s (KStr "1")
  | None => inr []
  end.

(** The history of the request is absent or empty, or its [prompt_list]
    has an even number of entries. *)
Definition even_history (payload : value) : bool :=
  match payload with
  | VDict pd =>
      let history := history_of pd in
      if truthy history then
        match ebind (subscript history "prompt_list") py_iter with
        | inr prompts => Nat.even (length prompts)
        | inl _ => true
        end
      else true
  | _ => true
  end.

(** A history as the service returns it, with an explicit [prompt_list]. *)
Definition history_with (thread : value) (prompt_list : value) : value :=
  VDict [("config", VDict [("configurable", VDict [("thread_id", thread)])]);
         ("checkpoint", VDict [("channel_values", VDict [])]);
         ("prompt_list", prompt_list);
         ("metadata", VDict [("source", VStr "loop")]);
         ("new_version", VNone)].

(** ** One decode/encode cycle *)

(** Restoration from a history followed at once by the snapshot of
    [post_processing], with no run of the graph in between. *)
Definition recycle (pretty_repr : message -> string)
    (history llm_response : value) : heap * (exn + pydict) :=
  bind (init_state_graph history)
       (fun llm_handle =>
          post_processing pretty_repr llm_response llm_handle graph_config) [].

(** The snapshot that the request [hello] leaves under thread ["1"] when
    the remote model is [echo_chat], the run that produced it, and the
    history returned for it. *)
Definition hello_turns : list message :=
  [HumanMessage "Hello"; AIMessage "re:Hello"].

Definition hello_snapshot : snapshot :=
  Snapshot graph_config
    (VDict [("channel_values",
             VDict [("messages", VList (map VMsg hello_turns))])])
    (step_metadata (AIMessage "re:Hello"))
    VNone.

Definition hello_response : value :=
  VDict [("messages", VList (map VMsg hello_turns))].

Definition hello_history : pydict :=
  [("config", graph_config);
   ("checkpoint", VDict [("channel_values", VDict [])]);
   ("prompt_list", VList [VStr "Hello"; VStr "re:Hello"]);
   ("metadata", VDict [("source", VStr "loop")]);
   ("new_version", VNone)].

Definition is_string (v : value) : bool :=
  match v with VStr _ => true | _ => false end.

(** A history that is structurally invalid: its [prompt_list] is not a list
    of strings, or its [checkpoint] or [metadata] lack the substructure that
    restoration reads. *)
Definition invalid_history (history : value) : bool :=
  negb match history with
       | VDict hd =>
           match dict_get "prompt_list" hd with
           | Some (VList l) => forallb is_string l
           | _ => false
           end
           && match dict_get "checkpoint" hd with
              | Some (VDict cd) =>
                  match dict_get "channel_values" cd with
                  | Some (VDict _) => true
                  | _ => false
                  end
              | _ => false
              end
           && dict_has "metadata" hd
       | _ => false
       end.

(** The structural defects on which restoration raises: a history that is
    a string, a list, a number or a boolean instead of an object; a
    [prompt_list] that is missing or is a number, a boolean or [null],
    which cannot be iterated; a [checkpoint] that is missing or has no
    object under [channel_values]; a missing [metadata]. *)
Definition defective_history (history : value) : bool :=
  match history with
  | VDict hd =>
      match dict_get "prompt_list" hd with
      | Some (VList _) | Some (VStr _) | Some (VDict _) | Some (VMsg _) =>
          false
      | _ => true
      end
      || match dict_get "checkpoint" hd with
         | Some (VDict cd) =>
             match dict_get "channel_values" cd with
             | Some (VDict _) => false
             | _ => true
             end
         | _ => true
         end
      || negb (dict_has "metadata" hd)
  | VMsg _ => false
  | _ => true
  end.

(** A history of three turns that exceeds the budget of [char_counter]:
    two turns of three hundred characters and a short question. *)
Definition long_history : list message :=
  [HumanMessage (rule 300); AIMessage (rule 300); HumanMessage "hi"].

(** A history of three turns whose newest turn alone nearly fills the
    budget of [char_counter]. *)
Definition wide_history : list message :=
  [HumanMessage (rule 300); AIMessage (rule 300); HumanMessage (rule 450)].

(** ** Readings of the request *)

(** The bodies that the guard of [main] turns away: a body that parses to
    a falsy value, or to an object without the key [human_input]. *)
Definition rejected_body (payload : value) : bool :=
  negb (truthy payload)
  || match payload with
     | VDict d => negb (dict_has "human_input" d)
     | _ => false
     end.

(** A body that lacks a key: every body except an object that has it. *)
Definition lacks_key (k : string) (payload : value) : bool :=
  match payload with
  | VDict d => negb (dict_has k d)
  | _ => true
  end.

(** The exceptions that Flask answers with an internal server error. *)
Definition is_abort (e : exn) : bool :=
  match e with Abort _ => true | _ => false end.

(** A computation that raises, if at all, an exception nobody handles. *)
Definition unhandled {A} (x : exn + A) : Prop :=
  forall e, x = inl e -> is_abort e = false.

(** ** The guard of [main] and the histories that restoration reads *)

(** The guard [not (payload and 'human_input' in payload)] holds. *)
Definition guard_rejects (payload : value) : bool :=
  negb (truthy payload)
  || match contains "human_input" payload with
     | inr false => true
     | _ => false
     end.

(** The histories that [init_state_graph] reads without raising: the falsy
    ones, which it skips, and the objects with a [prompt_list] that iterates
    over strings, a [checkpoint] with an object under [channel_values], a
    [config] that names a thread, a [metadata] and a [new_version]. *)
Definition restorable (history : value) : bool :=
  negb (truthy history)
  || match history with
     | VDict hd =>
         match dict_get "prompt_list" hd with
         | Some prompt_list =>
             match py_iter prompt_list with
             | inr prompts => forallb is_string prompts
             | inl _ => false
             end
         | None => false
         end
         && match dict_get "checkpoint" hd with
            | Some (VDict cd) =>
                match dict_get "channel_values" cd with
                | Some (VDict _) => true
                | _ => false
                end
            | _ => false
            end
         && match dict_get "config" hd with
            | Some config =>
                match thread_of config with inr _ => true | inl _ => false end
            | None => false
            end
         && dict_has "metadata" hd
         && dict_has "new_version" hd
     | _ => false
     end.

(** A single code point: one byte and continuation bytes after it. *)
Definition whole_point (p : string) : bool :=
  match p with
  | String _ k => forallb is_cont (list_ascii_of_string k)
  | EmptyString => false
  end.

(** A string that opens with a byte that is no continuation byte. *)
Definition lead_point (p : string) : bool :=
  match p with
  | String c _ => negb (is_cont c)
  | EmptyString => false
  end.

(** The entries that the [prompt_list] of a history iterates over, if any,
    are strings. *)
Definition string_prompts (history : value) : bool :=
  match history with
  | VDict hd =>
      match dict_get "prompt_list" hd with
      | Some prompt_list =>
          match py_iter prompt_list with
          | inr prompts => forallb is_string prompts
          | inl _ => true
          end
      | None => true
      end
  | _ => true
  end.

(** * Properties *)

(** ** Inversion of the monadic steps *)

Lemma ebind_inr {A B} (x : exn + A) (f : A -> exn + B) (b : B) :
  ebind x f = inr b -> exists a, x = inr a /\ f a = inr b.
Proof. destruct x as [e|a]; simpl; intros H; [discriminate | eauto]. Qed.

Lemma bind_inr {A B} (m : M A) (f : A -> M B) (h h' : heap) (b : B) :
  bind m f h = (h', inr b) ->
  exists a h1, m h = (h1, inr a) /\ f a h1 = (h', inr b).
Proof.
  unfold bind. destruct (m h) as [h1 [e|a]]; intros H; [discriminate | eauto].
Qed.

Lemma lift_inr {A} (x : exn + A) (h h' : heap) (a : A) :
  lift x h = (h', inr a) -> h' = h /\ x = inr a.
Proof. unfold lift. intros H. injection H as -> ->. auto. Qed.

Lemma ret_inr {A} (a a' : A) (h h' : heap) :
  ret a h = (h', inr a') -> h' = h /\ a' = a.
Proof. unfold ret. intros H. injection H as -> ->. auto. Qed.

Ltac inv_step :=
  match goal with
  | H : bind _ _ _ = (_, inr _) |- _ =>
      let a := fresh "a" in let h1 := fresh "h" in
      let H1 := fresh "Hm" in let H2 := fresh "Hk" in
      apply bind_inr in H; destruct H as (a & h1 & H1 & H2)
  | H : lift _ _ = (_, inr _) |- _ =>
      let E := fresh "E" in apply lift_inr in H; destruct H as [-> E]
  | H : ret _ _ = (_, inr _) |- _ =>
      apply ret_inr in H; destruct H as [-> ->]
  | H : ebind _ _ = inr _ |- _ =>
      let a := fresh "a" in
      let H1 := fresh "Hm" in let H2 := fresh "Hk" in
      apply ebind_inr in H; destruct H as (a & H1 & H2)
  | H : raise _ _ = (_, inr _) |- _ => discriminate H
  | H : inl _ = inr _ |- _ => discriminate H
  end.

(** ** Dictionaries *)

Lemma dict_get_set_eq (k : string) (v : value) (d : pydict) :
  dict_get k (dict_set k v d) = Some v.
Proof.
  induction d as [|[k' v'] d IH]; simpl.
  - now rewrite String.eqb_refl.
  - destruct (String.eqb k k') eqn:E; simpl; rewrite ?E; [|exact IH].
    now rewrite String.eqb_refl.
Qed.

Lemma dict_set_set (k : string) (v w : value) (d : pydict) :
  dict_set k w (dict_set k v d) = dict_set k w d.
Proof.
  induction d as [|[k' v'] d IH]; simpl.
  - now rewrite String.eqb_refl.
  - destruct (String.eqb k k') eqn:E; simpl; rewrite ?E.
    + now rewrite String.eqb_refl.
    + now rewrite IH.
Qed.

Lemma dict_set_same (k : string) (v : value) (d : pydict) :
  dict_get k d = Some v -> dict_set k v d = d.
Proof.
  induction d as [|[k' v'] d IH]; simpl; [discriminate|].
  destruct (String.eqb k k') eqn:E.
  - apply String.eqb_eq in E as ->. now intros [= ->].
  - intros H. now rewrite IH.
Qed.

Lemma dict_remove_set (k : string) (v : value) (d : pydict) :
  dict_remove k (dict_set k v d) = dict_remove k d.
Proof.
  unfold dict_remove.
  induction d as [|[k' v'] d IH]; simpl.
  - now rewrite String.eqb_refl.
  - destruct (String.eqb k k') eqn:E; simpl.
    + now rewrite String.eqb_refl.
    + rewrite E. simpl. now rewrite IH.
Qed.

Lemma dict_remove_absent (k : string) (d : pydict) :
  dict_get k d = None -> dict_remove k d = d.
Proof.
  unfold dict_remove.
  induction d as [|[k' v'] d IH]; simpl; [reflexivity|].
  destruct (String.eqb k k') eqn:E; [discriminate|].
  intros H. simpl. now rewrite IH.
Qed.

Lemma dict_get_remove (k : string) (d : pydict) :
  dict_get k (dict_remove k d) = None.
Proof.
  unfold dict_remove.
  induction d as [|[k' v'] d IH]; simpl; [reflexivity|].
  destruct (String.eqb k k') eqn:E; simpl; [exact IH|].
  now rewrite E.
Qed.

(** ** The heap: every request works on an object of its own *)

Lemma heap_lookup_new (h : heap) (s : saver) : (h ++ [s]) !! length h = Some s.
Proof. rewrite lookup_app_r by lia. now rewrite Nat.sub_diag. Qed.

Lemma heap_insert_new (h : heap) (s s' : saver) :
  <[length h := s']> (h ++ [s]) = h ++ [s'].
Proof. rewrite insert_app_r_alt by lia. now rewrite Nat.sub_diag. Qed.

Section Frame.

Lemma init_state_graph_eq (history : value) (h : heap) :
  init_state_graph history h =
    match restored history with
    | inr s => (h ++ [s], inr (length h))
    | inl e => (h ++ [∅], inl e)
    end.
Proof.
  unfold init_state_graph, restored, forged, MemorySaver, bind, lift, ret.
  destruct (truthy history); [|reflexivity].
  destruct (subscript history "prompt_list") as [e|pl]; [reflexivity|]. simpl.
  destruct (py_iter pl) as [e|prompts]; [reflexivity|]. simpl.
  destruct (forge_messages 0 prompts) as [e|ms]; [reflexivity|]. simpl.
  destruct (subscript history "checkpoint") as [e|cp]; [reflexivity|]. simpl.
  destruct (with_messages cp ms) as [e|cp']; [reflexivity|]. simpl.
  destruct (subscript history "config") as [e|cfg]; [reflexivity|]. simpl.
  destruct (subscript history "metadata") as [e|md]; [reflexivity|]. simpl.
  destruct (subscript history "new_version") as [e|nv]; [reflexivity|]. simpl.
  unfold saver_put.
  destruct (thread_of cfg) as [e|k]; [reflexivity|]. simpl.
  rewrite heap_lookup_new, heap_insert_new. reflexivity.
Qed.

Variable chat_invoke : list message -> option string.
Variable token_counter : list message -> nat.
Variable pretty_repr : message -> string.

Lemma invoke_eq (h : heap) (s : saver) (input config : value) :
  invoke chat_invoke token_counter (length h) input config (h ++ [s]) =
    match step chat_invoke token_counter s input config with
    | inr (s', r) => (h ++ [s'], inr r)
    | inl e => (h ++ [s], inl e)
    end.
Proof.
  unfold invoke, step, saver_get_tuple, saver_put, bind, lift, ret.
  set (commit := with_messages).
  destruct (thread_of config) as [e|k]; [reflexivity|]. simpl.
  rewrite heap_lookup_new.
  destruct (s !! k) as [t|]; simpl.
  - destruct (checkpoint_messages (snap_checkpoint t)) as [e|c];
      [reflexivity|]. simpl.
    destruct (subscript input "messages") as [e|x]; [reflexivity|]. simpl.
    destruct x; try reflexivity. simpl.
    destruct (call_model _ _ _) as [e|reply]; [reflexivity|]. simpl.
    destruct (commit _ _) as [e|cp]; [reflexivity|]. simpl.
    rewrite heap_lookup_new, heap_insert_new. reflexivity.
  - destruct (subscript input "messages") as [e|x]; [reflexivity|]. simpl.
    destruct x; try reflexivity. simpl.
    destruct (call_model _ _ _) as [e|reply]; [reflexivity|]. simpl.
    rewrite heap_lookup_new, heap_insert_new. reflexivity.
Qed.

Lemma post_processing_eq (h : heap) (s : saver) (r config : value) :
  post_processing pretty_repr r (length h) config (h ++ [s]) =
    (h ++ [s], processed pretty_repr s r config).
Proof.
  unfold post_processing, processed, saver_get_tuple, bind, lift, ret, raise.
  destruct (thread_of config) as [e|k]; [reflexivity|]. simpl.
  rewrite heap_lookup_new.
  destruct (s !! k) as [t|]; [|reflexivity].
  destruct (snapshot_history t) as [e|hist]; [reflexivity|]. simpl.
  destruct (response_text pretty_repr r) as [e|txt]; reflexivity.
Qed.

Lemma main_eq (payload : value) (h : heap) :
  main chat_invoke token_counter pretty_repr (inr payload) h =
    (h ++ fst (served chat_invoke token_counter pretty_repr payload),
     snd (served chat_invoke token_counter pretty_repr payload)).
Proof.
  unfold main, served.
  unfold bind at 1. unfold lift at 1. cbv beta iota.
  unfold bind at 1. unfold lift at 1.
  destruct (if truthy payload then contains "human_input" payload
            else inr false) as [e|[|]]; simpl;
    [now rewrite app_nil_r | | unfold raise; now rewrite app_nil_r].
  unfold bind at 1. unfold lift at 1.
  destruct (contains "history" payload) as [e|resume]; simpl;
    [now rewrite app_nil_r |].
  assert (Hinit :
    (if resume then
       bind (lift (subscript payload "history"))
         (fun history => init_state_graph history)
     else init_state_graph VNone) h =
    match (if resume then subscript payload "history" else inr VNone) with
    | inl e => (h, inl e)
    | inr history =>
        match restored history with
        | inr s => (h ++ [s], inr (length h))
        | inl e => (h ++ [∅], inl e)
        end
    end).
  { destruct resume.
    - unfold bind, lift.
      destruct (subscript payload "history") as [e|history]; [reflexivity|].
      apply init_state_graph_eq.
    - apply init_state_graph_eq. }
  unfold bind at 1. rewrite Hinit. clear Hinit.
  destruct (if resume then subscript payload "history" else inr VNone)
    as [e|history]; simpl; [now rewrite app_nil_r |].
  destruct (restored history) as [e|s]; simpl; [reflexivity|].
  unfold bind at 1. unfold lift at 1.
  destruct (subscript payload "human_input") as [e|human_input]; simpl;
    [reflexivity|].
  unfold bind. rewrite invoke_eq.
  destruct (step _ _ s _ graph_config) as [e|[s' r]]; simpl; [reflexivity|].
  apply post_processing_eq.
Qed.

Lemma main_turned_away (e : exn) (h : heap) :
  main chat_invoke token_counter pretty_repr (inl e) h = (h, inl e).
Proof. reflexivity. Qed.

End Frame.

(** ** The message slot of a checkpoint *)

Lemma emap_as_message (msgs : list message) :
  emap as_message (map VMsg msgs) = inr msgs.
Proof. induction msgs as [|m msgs IH]; simpl; [|rewrite IH]; reflexivity. Qed.

Lemma as_messages_list (msgs : list message) :
  as_messages (VList (map VMsg msgs)) = inr msgs.
Proof. unfold as_messages. simpl. apply emap_as_message. Qed.

Lemma with_messages_inv (checkpoint checkpoint' : value) (msgs : list message) :
  with_messages checkpoint msgs = inr checkpoint' ->
  exists d cvd, checkpoint = VDict d
    /\ dict_get "channel_values" d = Some (VDict cvd)
    /\ checkpoint' = slotted d cvd msgs.
Proof.
  unfold with_messages, subscript, set_item. intros H.
  destruct checkpoint as [| | | | |d|]; try discriminate H.
  destruct (dict_get "channel_values" d) as [cv|] eqn:E; [|discriminate H].
  simpl in H. destruct cv as [| | | | |cvd|]; try discriminate H.
  simpl in H. injection H as <-. eauto.
Qed.

Lemma with_messages_slotted (d cvd : pydict) (old new : list message) :
  with_messages (slotted d cvd old) new = inr (slotted d cvd new).
Proof.
  unfold with_messages, slotted, subscript, set_item.
  rewrite dict_get_set_eq. simpl. now rewrite !dict_set_set.
Qed.

Lemma checkpoint_messages_slotted (d cvd : pydict) (msgs : list message) :
  checkpoint_messages (slotted d cvd msgs) = inr msgs.
Proof.
  unfold checkpoint_messages, slotted, subscript.
  rewrite dict_get_set_eq. simpl. rewrite dict_get_set_eq. simpl.
  apply as_messages_list.
Qed.

Lemma snapshot_history_slotted (config metadata metadata' new_version : value)
    (d cvd : pydict) (msgs : list message) :
  del_item metadata "writes" = inr metadata' ->
  snapshot_history
    (Snapshot config (slotted d cvd msgs) metadata new_version) =
  inr [("config", config);
       ("checkpoint",
        VDict (dict_set "channel_values"
                 (VDict (dict_remove "messages" cvd)) d));
       ("prompt_list", texts msgs);
       ("metadata", metadata');
       ("new_version", new_version)].
Proof.
  intros Hdel. unfold snapshot_history, slotted, subscript. simpl.
  rewrite dict_get_set_eq. simpl. rewrite dict_get_set_eq. simpl.
  rewrite as_messages_list. simpl.
  unfold dict_del, dict_has. rewrite dict_get_set_eq. simpl.
  rewrite dict_remove_set, dict_set_set. rewrite Hdel. reflexivity.
Qed.

Lemma thread_of_graph_config : thread_of graph_config = inr (KStr "1").
Proof. reflexivity. Qed.

(** ** One successful request *)

Section Success.

Variable chat_invoke : list message -> option string.
Variable token_counter : list message -> nat.
Variable pretty_repr : message -> string.

Lemma response_text_newest (msgs : list message) (reply : message) :
  response_text pretty_repr
    (VDict [("messages", VList (map VMsg (msgs ++ [reply])))]) =
  inr (str_drop 82 (pretty_repr reply)).
Proof.
  unfold response_text, subscript. simpl.
  unfold last_item. rewrite map_app. simpl. rewrite last_snoc. reflexivity.
Qed.

Lemma call_model_inv (state_messages : list message) (reply : message) :
  call_model chat_invoke token_counter state_messages = inr reply ->
  exists prompt text,
    pre_processing token_counter state_messages = inr prompt
    /\ chat_invoke prompt = Some text
    /\ reply = AIMessage text.
Proof.
  unfold call_model. intros H. inv_step.
  destruct (chat_invoke a) as [text|] eqn:E; [|discriminate].
  injection Hk as <-. eauto.
Qed.

Lemma step_ok (s s' : saver) (x r : value) :
  step chat_invoke token_counter s (VDict [("messages", x)]) graph_config
    = inr (s', r) ->
  exists text committed reply d cvd nv,
    x = VStr text
    /\ committed_of s (KStr "1") = inr committed
    /\ call_model chat_invoke token_counter
         (committed ++ [HumanMessage text]) = inr reply
    /\ s' = <[KStr "1" :=
                Snapshot graph_config
                  (slotted d cvd ((committed ++ [HumanMessage text]) ++ [reply]))
                  (step_metadata reply) nv]> s
    /\ r = VDict [("messages",
                   VList (map VMsg
                            ((committed ++ [HumanMessage text]) ++ [reply])))].
Proof.
  unfold step. rewrite thread_of_graph_config. simpl. intros H.
  apply ebind_inr in H as (committed & Hc & H).
  apply ebind_inr in H as (human & Hh & H).
  destruct x as [| | |text| | |]; try discriminate Hh.
  injection Hh as <-.
  apply ebind_inr in H as (reply & Hr & H).
  apply ebind_inr in H as (checkpoint & Hw & H).
  apply with_messages_inv in Hw as (d & cvd & _ & _ & ->).
  injection H as <- <-.
  exists text, committed, reply, d, cvd.
  eexists. unfold committed_of. repeat split; eauto.
Qed.

Lemma served_ok (payload : value) (tail : list saver) (body : pydict) :
  served chat_invoke token_counter pretty_repr payload = (tail, inr body) ->
  exists pd text s committed reply d cvd nv,
    payload = VDict pd
    /\ dict_get "human_input" pd = Some (VStr text)
    /\ restored (history_of pd) = inr s
    /\ committed_of s (KStr "1") = inr committed
    /\ call_model chat_invoke token_counter
         (committed ++ [HumanMessage text]) = inr reply
    /\ tail = [<[KStr "1" :=
                  Snapshot graph_config
                    (slotted d cvd
                       ((committed ++ [HumanMessage text]) ++ [reply]))
                    (step_metadata reply) nv]> s]
    /\ body = success_body pretty_repr d cvd nv committed text reply.
Proof.
  unfold served. intros H.
  destruct (if truthy payload then contains "human_input" payload
            else inr false) as [e|[|]] eqn:Hp; try discriminate H.
  destruct (ebind (contains "history" payload) _) as [e|history] eqn:Hh;
    [discriminate H|].
  destruct (restored history) as [e|s] eqn:Hs; [discriminate H|].
  destruct (ebind (subscript payload "human_input") _) as [e|[s' r]] eqn:Hi;
    [discriminate H|].
  apply ebind_inr in Hi as (x & Hx & Hstep).
  destruct payload as [| | | | |pd|]; try discriminate Hx.
  unfold subscript in Hx.
  destruct (dict_get "human_input" pd) as [x'|] eqn:Hget; [|discriminate Hx].
  injection Hx as ->.
  apply step_ok in Hstep
    as (text & committed & reply & d & cvd & nv & -> & Hc & Hr & -> & ->).
  assert (history = history_of pd) as ->.
  { unfold history_of. simpl in Hh. unfold dict_has in Hh.
    destruct (dict_get "history" pd); simpl in Hh; congruence. }
  injection H as <- Hbody.
  exists pd, text, s, committed, reply, d, cvd, nv.
  unfold success_body. repeat split; auto.
  unfold processed in Hbody. rewrite thread_of_graph_config in Hbody.
  simpl in Hbody. rewrite lookup_insert_eq in Hbody.
  rewrite (snapshot_history_slotted _ _ (VDict [("source", VStr "loop")]))
    in Hbody by reflexivity.
  simpl in Hbody. rewrite response_text_newest in Hbody. simpl in Hbody.
  now injection Hbody as <-.
Qed.

End Success.

(** ** Slicing the pretty-printed reply *)

Lemma split_points_skip (s : string) :
  split_points (skip_cont s) = (EmptyString, snd (split_points s)).
Proof.
  induction s as [|c s IH]; [reflexivity|].
  cbn [skip_cont]. destruct (is_cont c) eqn:Ec.
  - rewrite IH. cbn [split_points]. destruct (split_points s) as [k points].
    now rewrite Ec.
  - cbn [split_points]. destruct (split_points s) as [k points].
    now rewrite Ec.
Qed.

Lemma code_points_cons (c : ascii) (s : string) :
  code_points (String c s)
  = String c (fst (split_points s)) :: snd (split_points s).
Proof.
  unfold code_points. cbn [split_points].
  destruct (split_points s) as [k points]. now destruct (is_cont c).
Qed.

Lemma code_points_skip (s : string) :
  code_points (skip_cont s) = snd (split_points s).
Proof. unfold code_points. now rewrite split_points_skip. Qed.

(** Slicing a string is dropping from the list of its code points. *)
Lemma code_points_str_drop (n : nat) (s : string) :
  code_points (str_drop n s) = drop n (code_points s).
Proof.
  revert s. induction n as [|n IH]; intros s; [reflexivity|].
  destruct s as [|c s]; [reflexivity|].
  cbn [str_drop]. now rewrite IH, code_points_skip, code_points_cons.
Qed.

Lemma join_split_points (s : string) :
  String.append (fst (split_points s)) (join (snd (split_points s))) = s.
Proof.
  induction s as [|c s IH]; [reflexivity|].
  cbn [split_points]. destruct (split_points s) as [k points].
  unfold join in *. destruct (is_cont c); simpl in *; now rewrite <- IH.
Qed.

Lemma join_code_points (s : string) : join (code_points s) = s.
Proof.
  pose proof (join_split_points s) as H. unfold code_points.
  destruct (split_points s) as [k points]. cbn [fst snd] in H.
  now destruct k.
Qed.

Lemma code_points_inj (a b : string) :
  code_points a = code_points b -> a = b.
Proof.
  intros H. now rewrite <- (join_code_points a), H, join_code_points.
Qed.

(** ** Rejection of a request without input *)

Section Rejection.

Variable chat_invoke : list message -> option string.
Variable token_counter : list message -> nat.
Variable pretty_repr : message -> string.

(** C3, as amended: for every request whose JSON body parses to a falsy
    value ([null], an empty object, an empty list, an empty string, zero,
    false) or to a JSON object without the key [human_input], the handler
    answers HTTP 400 without a JSON body (so without a [history] field), and
    the heap is left as it was: no checkpointer is allocated, no state graph
    is built and no snapshot is written.  When [request.get_json()] turns
    the request away itself, as Flask does for a request without a JSON
    body, the guard is not reached: the response has the status of that
    HTTP error, and the heap is left as it was, too. *)
Theorem missing_input_rejected (payload : value) (code : nat) (h : heap) :
  rejected_body payload = true ->
  dispatch chat_invoke token_counter pretty_repr (inr payload) h
    = (h, Response 400 None)
  /\ dispatch chat_invoke token_counter pretty_repr (inl (Abort code)) h
     = (h, Response code None).
Proof.
  intros Hrej. split; [|reflexivity].
  unfold dispatch. rewrite main_eq.
  assert (served chat_invoke token_counter pretty_repr payload
          = ([], inl (Abort 400))) as ->.
  { unfold served, rejected_body in *.
    destruct (truthy payload) eqn:Ht; [|reflexivity].
    simpl in Hrej. destruct payload; try discriminate Hrej.
    simpl. now destruct (dict_has "human_input" d). }
  simpl. now rewrite app_nil_r.
Qed.

End Rejection.

Lemma missing_input_rejected_witness :
  dispatch echo_chat char_counter langchain_pretty_repr
    (inr (VDict [("history", VDict [("prompt_list", VList [])])])) []
  = ([], Response 400 None)
  /\ dispatch echo_chat char_counter langchain_pretty_repr
       (inl (Abort 415)) []
     = ([], Response 415 None).
Proof.
  apply (missing_input_rejected echo_chat char_counter langchain_pretty_repr
           (VDict [("history", VDict [("prompt_list", VList [])])]) 415 []).
  reflexivity.
Defined.

(** C3, as stated, fails: the JSON body [5] lacks the key [human_input], yet
    the membership test of the guard raises on it, and the request ends
    in an internal server error instead of HTTP 400. *)
Lemma missing_input_not_always_400 :
  ~ (forall payload : value,
       lacks_key "human_input" payload = true ->
       status (snd (dispatch echo_chat char_counter langchain_pretty_repr
                      (inr payload) []))
       = 400).
Proof.
  intros H. specialize (H (VInt 5) eq_refl). vm_compute in H. discriminate H.
Qed.

(** ** The returned response *)

Section Reply.

Variable chat_invoke : list message -> option string.
Variable token_counter : list message -> nat.
Variable pretty_repr : message -> string.

(** C10: computing the returned [response] never fails, whatever the length
    of the reply: on the result of a run of the graph, whose newest message
    is the reply, it yields the pretty-printed reply with its first 82
    characters dropped, and so the empty string when the pretty-printed
    reply has 82 characters or fewer. *)
Theorem response_slice_total (msgs : list message) (reply : message) :
  exists response : string,
    response_text pretty_repr
      (VDict [("messages", VList (map VMsg (msgs ++ [reply])))])
    = inr response
    /\ code_points response = drop 82 (code_points (pretty_repr reply))
    /\ (length (code_points (pretty_repr reply)) <= 82 ->
        response = EmptyString).
Proof.
  exists (str_drop 82 (pretty_repr reply)).
  split; [apply response_text_newest|].
  split; [apply code_points_str_drop|].
  intros Hshort. apply code_points_inj.
  rewrite code_points_str_drop. now apply drop_ge.
Qed.

(** C6, as amended: for every successful request, the returned [response]
    is the pretty-printed newest reply with its first 82 characters
    dropped, and it is exactly the text that the remote model returned,
    the newest entry of the returned [prompt_list], whenever the
    pretty-printed form of that reply is 82 characters followed by the
    text unchanged. *)
Theorem response_is_reply_text (payload : value) (h h' : heap)
    (body : pydict) :
  main chat_invoke token_counter pretty_repr (inr payload) h
  = (h', inr body) ->
  exists (prompt : list message) (reply response : string)
         (turns : list value) (hist : pydict),
    chat_invoke prompt = Some reply
    /\ dict_get "response" body = Some (VStr response)
    /\ code_points response
       = drop 82 (code_points (pretty_repr (AIMessage reply)))
    /\ dict_get "history" body = Some (VDict hist)
    /\ dict_get "prompt_list" hist = Some (VList (turns ++ [VStr reply]))
    /\ (forall title : list string,
          code_points (pretty_repr (AIMessage reply))
          = title ++ code_points reply ->
          length title = 82 ->
          response = reply).
Proof.
  intros Hmain.
  rewrite main_eq in Hmain. injection Hmain as _ Hbody.
  destruct (served chat_invoke token_counter pretty_repr payload)
    as [tail res] eqn:Hs.
  simpl in Hbody. subst res.
  apply served_ok in Hs
    as (pd & text & s & committed & reply & d & cvd & nv
        & _ & _ & _ & _ & Hcall & _ & ->).
  apply call_model_inv in Hcall as (prompt & answer & _ & Hchat & ->).
  exists prompt, answer, (str_drop 82 (pretty_repr (AIMessage answer))).
  eexists. eexists. split; [exact Hchat|].
  unfold success_body.
  split; [reflexivity|]. split; [apply code_points_str_drop|].
  split; [reflexivity|]. split.
  - simpl. unfold texts. rewrite map_app. reflexivity.
  - intros title Htitle Hlen. apply code_points_inj.
    rewrite code_points_str_drop, Htitle. now apply drop_app_length'.
Qed.

End Reply.

Lemma response_slice_total_witness :
  response_text langchain_pretty_repr
    (VDict [("messages", VList [VMsg (HumanMessage "Hello"); VMsg (Msg AI "")])])
  = inr EmptyString.
Proof.
  destruct (response_slice_total langchain_pretty_repr
              [HumanMessage "Hello"] (Msg AI ""))
    as (response & Hslice & _ & Hempty).
  assert (Hshort : length (code_points (langchain_pretty_repr (Msg AI "")))
                   <= 82) by (vm_compute; lia).
  rewrite (Hempty Hshort) in Hslice. exact Hslice.
Defined.

Lemma response_is_reply_text_witness :
  exists (prompt : list message) (reply response : string)
         (turns : list value) (hist : pydict),
    echo_chat prompt = Some reply
    /\ dict_get "response"
         [("response", VStr "re:Hello"); ("history", VDict hello_history)]
       = Some (VStr response)
    /\ code_points response
       = drop 82 (code_points (langchain_pretty_repr (AIMessage reply)))
    /\ dict_get "history"
         [("response", VStr "re:Hello"); ("history", VDict hello_history)]
       = Some (VDict hist)
    /\ dict_get "prompt_list" hist = Some (VList (turns ++ [VStr reply]))
    /\ (forall title : list string,
          code_points (langchain_pretty_repr (AIMessage reply))
          = title ++ code_points reply ->
          length title = 82 ->
          response = reply).
Proof.
  apply (response_is_reply_text echo_chat char_counter langchain_pretty_repr
           hello []
           (fst (main echo_chat char_counter langchain_pretty_repr
                   (inr hello) []))).
  vm_compute. reflexivity.
Defined.

(** C6, as stated, fails: when the remote model answers ["Hi  "], the
    pretty printer strips the white space at the end of its output, and the
    [response] is ["Hi"], two characters short of the reply text. *)
Lemma padded_reply_loses_white_space :
  ~ (forall (payload : value) (h h' : heap) (body : pydict),
        main padded_chat char_counter langchain_pretty_repr (inr payload) h
        = (h', inr body) ->
        exists (prompt : list message) (reply : string),
          padded_chat prompt = Some reply
          /\ dict_get "response" body = Some (VStr reply)).
Proof.
  intros H.
  eassert (Hmain : main padded_chat char_counter langchain_pretty_repr
                     (inr hello) [] = (_, inr _))
    by (vm_compute; reflexivity).
  destruct (H _ _ _ _ Hmain) as (prompt & reply & Hchat & Hresponse).
  injection Hchat as <-. vm_compute in Hresponse. discriminate Hresponse.
Qed.

(** ** Exceptions of the request: one abort, everything else unhandled *)

Create HintDb unhandled.

Lemma unhandled_inr {A} (a : A) : unhandled (inr a : exn + A).
Proof. intros e H. discriminate H. Qed.

Lemma unhandled_inl {A} (e : exn) :
  is_abort e = false -> unhandled (inl e : exn + A).
Proof. intros He e' H. now injection H as <-. Qed.

Lemma unhandled_ebind {A B} (x : exn + A) (f : A -> exn + B) :
  unhandled x -> (forall a, unhandled (f a)) -> unhandled (ebind x f).
Proof.
  intros Hx Hf e. destruct x as [e'|a]; simpl; [|exact (Hf a e)].
  intros H. injection H as <-. now apply Hx.
Qed.

Ltac unhandled_step :=
  first
    [ solve [auto with unhandled]
    | apply unhandled_inr
    | apply unhandled_inl; reflexivity
    | apply unhandled_ebind; [|intros ?]
    | match goal with
      | |- unhandled (match ?x with _ => _ end) => destruct x
      | |- unhandled (if ?b then _ else _) => destruct b
      | |- unhandled (let '(_, _) := ?x in _) => destruct x
      end ].

Ltac unhandled_tac := repeat unhandled_step.

Lemma unhandled_subscript (v : value) (k : string) : unhandled (subscript v k).
Proof. unfold subscript. unhandled_tac. Qed.

Lemma unhandled_set_item (v x : value) (k : string) :
  unhandled (set_item v k x).
Proof. unfold set_item. unhandled_tac. Qed.

Lemma unhandled_del_item (v : value) (k : string) : unhandled (del_item v k).
Proof.
  unfold del_item, dict_del. destruct v; try (apply unhandled_inl; reflexivity).
  destruct (dict_has k d); unhandled_tac.
Qed.

Lemma unhandled_contains (v : value) (k : string) : unhandled (contains k v).
Proof. unfold contains. unhandled_tac. Qed.

Lemma unhandled_py_iter (v : value) : unhandled (py_iter v).
Proof. unfold py_iter. unhandled_tac. Qed.

Lemma unhandled_hash_key (v : value) : unhandled (hash_key v).
Proof. unfold hash_key. unhandled_tac. Qed.

Lemma unhandled_as_message (v : value) : unhandled (as_message v).
Proof. unfold as_message. unhandled_tac. Qed.

Lemma unhandled_new_message (r : role) (v : value) :
  unhandled (new_message r v).
Proof. unfold new_message. unhandled_tac. Qed.

Lemma unhandled_last_item (l : list value) : unhandled (last_item l).
Proof. unfold last_item. unhandled_tac. Qed.

#[local] Hint Resolve unhandled_subscript unhandled_set_item
  unhandled_del_item unhandled_contains unhandled_py_iter unhandled_hash_key
  unhandled_as_message unhandled_new_message unhandled_last_item : unhandled.

Lemma unhandled_emap {A B} (f : A -> exn + B) (l : list A) :
  (forall a, unhandled (f a)) -> unhandled (emap f l).
Proof.
  intros Hf. induction l as [|a l IH]; simpl; [apply unhandled_inr|].
  apply unhandled_ebind; [apply Hf|]. intros b.
  apply unhandled_ebind; [exact IH|]. intros bs. apply unhandled_inr.
Qed.

Lemma unhandled_forge_messages (idx : nat) (prompts : list value) :
  unhandled (forge_messages idx prompts).
Proof.
  revert idx. induction prompts as [|p prompts IH]; intros idx; simpl;
    [apply unhandled_inr|].
  apply unhandled_ebind; [apply unhandled_new_message|]. intros m.
  apply unhandled_ebind; [apply IH|]. intros ms. apply unhandled_inr.
Qed.

Lemma unhandled_as_messages (v : value) : unhandled (as_messages v).
Proof.
  unfold as_messages. apply unhandled_ebind; [apply unhandled_py_iter|].
  intros items. apply unhandled_emap. apply unhandled_as_message.
Qed.

#[local] Hint Resolve unhandled_forge_messages unhandled_as_messages
  : unhandled.

Lemma unhandled_thread_of (config : value) : unhandled (thread_of config).
Proof. unfold thread_of. unhandled_tac. Qed.

Lemma unhandled_with_messages (checkpoint : value) (msgs : list message) :
  unhandled (with_messages checkpoint msgs).
Proof. unfold with_messages. unhandled_tac. Qed.

Lemma unhandled_checkpoint_messages (checkpoint : value) :
  unhandled (checkpoint_messages checkpoint).
Proof. unfold checkpoint_messages. unhandled_tac. Qed.

#[local] Hint Resolve unhandled_thread_of unhandled_with_messages
  unhandled_checkpoint_messages : unhandled.

Lemma unhandled_forged (history : value) : unhandled (forged history).
Proof. unfold forged. unhandled_tac. Qed.

Lemma unhandled_restored (history : value) : unhandled (restored history).
Proof.
  unfold restored. destruct (truthy history); [|apply unhandled_inr].
  apply unhandled_ebind; [apply unhandled_forged|]. intros ks.
  apply unhandled_inr.
Qed.

Lemma unhandled_snapshot_history (t : snapshot) :
  unhandled (snapshot_history t).
Proof. unfold snapshot_history. unhandled_tac. Qed.

#[local] Hint Resolve unhandled_restored unhandled_snapshot_history
  : unhandled.

Section Failure.

Variable chat_invoke : list message -> option string.
Variable token_counter : list message -> nat.
Variable pretty_repr : message -> string.

Lemma unhandled_trim_messages (max_tokens : nat) (include_system : bool)
    (start_on : role) (msgs : list message) :
  unhandled (trim_messages token_counter max_tokens include_system start_on msgs).
Proof.
  unfold trim_messages.
  destruct (system_head include_system msgs) as [head turns].
  destruct (last_window token_counter max_tokens start_on head turns);
    [apply unhandled_inr | apply unhandled_inl; reflexivity].
Qed.

Lemma unhandled_call_model (state_messages : list message) :
  unhandled (call_model chat_invoke token_counter state_messages).
Proof.
  unfold call_model, pre_processing.
  apply unhandled_ebind.
  - apply unhandled_ebind; [apply unhandled_trim_messages|].
    intros w. apply unhandled_inr.
  - intros prompt. destruct (chat_invoke prompt);
      [apply unhandled_inr | apply unhandled_inl; reflexivity].
Qed.

Lemma unhandled_response_text (llm_response : value) :
  unhandled (response_text pretty_repr llm_response).
Proof. unfold response_text. unhandled_tac. Qed.

#[local] Hint Resolve unhandled_call_model unhandled_response_text
  : unhandled.

Lemma unhandled_step (s : saver) (input config : value) :
  unhandled (step chat_invoke token_counter s input config).
Proof. unfold step. unhandled_tac. Qed.

Lemma unhandled_processed (s : saver) (r config : value) :
  unhandled (processed pretty_repr s r config).
Proof. unfold processed. unhandled_tac. Qed.

Lemma served_guarded (payload : value) (tail : list saver) (e : exn) :
  (if truthy payload then contains "human_input" payload else inr false)
  = inr true ->
  served chat_invoke token_counter pretty_repr payload = (tail, inl e) ->
  is_abort e = false.
Proof.
  intros Hg. unfold served. rewrite Hg.
  destruct (ebind (contains "history" payload) _) as [e0|history] eqn:Hh.
  - intros [= _ <-]. revert Hh. apply unhandled_ebind.
    + apply unhandled_contains.
    + intros [|]; [apply unhandled_subscript | apply unhandled_inr].
  - destruct (restored history) as [e0|s] eqn:Hs.
    + intros [= _ <-]. now apply (unhandled_restored history).
    + destruct (ebind (subscript payload "human_input") _)
        as [e0|[s' r]] eqn:Hi.
      * intros [= _ <-]. revert Hi. apply unhandled_ebind.
        -- apply unhandled_subscript.
        -- intros x. apply unhandled_step.
      * intros [= _ H].
        now apply (unhandled_processed s' r graph_config).
Qed.

Lemma served_classified (payload : value) (tail : list saver) (e : exn) :
  served chat_invoke token_counter pretty_repr payload = (tail, inl e) ->
  (e = Abort 400 /\ guard_rejects payload = true /\ tail = [])
  \/ is_abort e = false.
Proof.
  intros Hs.
  destruct (if truthy payload then contains "human_input" payload
            else inr false) as [e0|[|]] eqn:Hg.
  - right. unfold served in Hs. rewrite Hg in Hs. injection Hs as _ <-.
    destruct (truthy payload); [|discriminate Hg].
    now apply (unhandled_contains payload "human_input").
  - right. now apply (served_guarded payload tail e Hg).
  - left. unfold served in Hs. rewrite Hg in Hs. injection Hs as <- <-.
    split; [reflexivity|]. split; [|reflexivity].
    unfold guard_rejects. destruct (truthy payload); [|reflexivity].
    now rewrite Hg.
Qed.

(** C7, as amended: when the handling of a request fails, the HTTP response
    has no JSON body, hence no [history] field at all, and its status is
    tied to the failure: it is the status of the HTTP error of
    [request.get_json()] when that turned the request away, 400 when the
    guard of [main] found no [human_input], and 500 for every other
    failure, each of which is an exception that nobody handles (among them
    a history that cannot be restored, a failure of the trimmer and a
    failure of the remote model).  A response with a [history] is a 200
    whose [prompt_list] ends with the new Human turn followed by the
    Assistant reply, never with the Human turn alone. *)
Theorem failure_carries_no_history (get_json : exn + value) (h : heap) :
  match main chat_invoke token_counter pretty_repr get_json h with
  | (_, inl e) =>
      exists code : nat,
        snd (dispatch chat_invoke token_counter pretty_repr get_json h)
          = Response code None
        /\ ((e = Abort code
             /\ (get_json = inl (Abort code)
                 \/ (code = 400
                     /\ exists payload,
                          get_json = inr payload
                          /\ guard_rejects payload = true)))
            \/ (is_abort e = false /\ code = 500))
  | (_, inr body) =>
      snd (dispatch chat_invoke token_counter pretty_repr get_json h)
        = Response 200 (Some body)
      /\ exists (payload : value) (text reply : string)
                (turns : list value) (hist : pydict),
           get_json = inr payload
           /\ subscript payload "human_input" = inr (VStr text)
           /\ dict_get "history" body = Some (VDict hist)
           /\ dict_get "prompt_list" hist
              = Some (VList (turns ++ [VStr text; VStr reply]))
  end.
Proof.
  destruct get_json as [e0|payload].
  { unfold dispatch. rewrite main_turned_away. cbn [snd].
    destruct e0;
      try (exists 500; split; [reflexivity | right; split; reflexivity]).
    exists code. split; [reflexivity|]. left. auto. }
  unfold dispatch.
  destruct (main chat_invoke token_counter pretty_repr (inr payload) h)
    as [h' [e|body]] eqn:Hmain; rewrite main_eq in Hmain;
    injection Hmain as _ Hres;
    destruct (served chat_invoke token_counter pretty_repr payload)
      as [tail res] eqn:Hs; simpl in Hres; subst res.
  - apply served_classified in Hs as [(-> & Hg & _) | Hun].
    + exists 400. split; [reflexivity|]. left. split; [reflexivity|].
      right. split; [reflexivity|]. eauto.
    + exists 500. split; [destruct e; try discriminate Hun; reflexivity|].
      right. auto.
  - split; [reflexivity|].
    apply served_ok in Hs
      as (pd & text & s & committed & reply & d & cvd & nv
          & -> & Hin & _ & _ & Hcall & _ & ->).
    apply call_model_inv in Hcall as (prompt & answer & _ & _ & ->).
    exists (VDict pd), text, answer,
           (map (fun obj => VStr (content obj)) committed).
    eexists. split; [reflexivity|].
    split; [unfold subscript; now rewrite Hin|].
    split; [reflexivity|].
    simpl. unfold texts. rewrite !map_app, <- app_assoc. reflexivity.
Qed.

End Failure.

(** C7, as stated, fails: the status does not follow the failure.  When
    the remote model cannot be reached, the request ends in HTTP 500, not
    in the 502 or 503 of a failed remote inference. *)
Lemma remote_failure_is_500 :
  ~ (forall (payload : value) (h h' : heap),
        main down_chat char_counter langchain_pretty_repr (inr payload) h
        = (h', inl RemoteUnavailable) ->
        status (snd (dispatch down_chat char_counter langchain_pretty_repr
                       (inr payload) h)) = 502
        \/ status (snd (dispatch down_chat char_counter langchain_pretty_repr
                          (inr payload) h)) = 503).
Proof.
  intros H.
  destruct (H hello [] [∅] eq_refl) as [H502 | H503];
    [vm_compute in H502; discriminate H502
    | vm_compute in H503; discriminate H503].
Qed.

(** ** Roles by index parity *)

Lemma mod2_even (n : nat) : Nat.eqb (n mod 2) 0 = Nat.even n.
Proof.
  destruct (Nat.even n) eqn:E.
  - apply Nat.even_spec in E as [k ->].
    rewrite Nat.mul_comm, Nat.Div0.mod_mul. reflexivity.
  - assert (Ho : Nat.odd n = true) by (rewrite <- Nat.negb_even, E; reflexivity).
    apply Nat.odd_spec in Ho as [k ->].
    rewrite Nat.add_comm, (Nat.mul_comm 2 k), Nat.Div0.mod_add. reflexivity.
Qed.

Lemma forge_lookup (idx : nat) (prompts : list value) (msgs : list message) :
  forge_messages idx prompts = inr msgs ->
  length msgs = length prompts
  /\ forall i,
       i < length prompts ->
       exists text,
         prompts !! i = Some (VStr text)
         /\ msgs !! i
            = Some (Msg (if Nat.even (idx + i) then Human else AI) text).
Proof.
  revert idx msgs. induction prompts as [|p prompts IH]; intros idx msgs H.
  - simpl in H. injection H as <-. split; [reflexivity|]. simpl. lia.
  - cbn [forge_messages] in H. rewrite mod2_even in H.
    apply ebind_inr in H as (m & Hm & H).
    apply ebind_inr in H as (ms & Hms & H).
    injection H as <-.
    destruct p as [| | |text| | |]; try discriminate Hm.
    unfold new_message in Hm. injection Hm as <-.
    destruct (IH _ _ Hms) as [Hlen Hi].
    split; [simpl; now rewrite Hlen|].
    intros [|i] Hlt.
    + exists text. rewrite Nat.add_0_r. auto.
    + simpl in Hlt. destruct (Hi i ltac:(lia)) as (t & Hp & Hm).
      exists t. simpl. replace (idx + S i) with (S idx + i) by lia. auto.
Qed.

Lemma forge_alternates (idx : nat) (prompts : list value) (msgs : list message) :
  forge_messages idx prompts = inr msgs -> alternates idx msgs = true.
Proof.
  revert idx msgs. induction prompts as [|p prompts IH]; intros idx msgs H.
  - simpl in H. now injection H as <-.
  - cbn [forge_messages] in H. rewrite mod2_even in H.
    apply ebind_inr in H as (m & Hm & H).
    apply ebind_inr in H as (ms & Hms & H).
    injection H as <-.
    destruct p as [| | |text| | |]; try discriminate Hm.
    unfold new_message in Hm. injection Hm as <-.
    cbn [alternates msg_role]. rewrite (IH _ _ Hms).
    now destruct (Nat.even idx).
Qed.

Lemma alternates_app (idx : nat) (a b : list message) :
  alternates idx (a ++ b)
  = alternates idx a && alternates (idx + length a) b.
Proof.
  revert idx. induction a as [|m a IH]; intros idx; simpl.
  - now rewrite Nat.add_0_r.
  - rewrite IH. replace (S idx + length a) with (idx + S (length a)) by lia.
    now rewrite andb_assoc.
Qed.

Lemma role_eqb_eq (a b : role) : role_eqb a b = true -> a = b.
Proof. destruct a, b; simpl; intros H; congruence. Qed.

Lemma alternates_lookup (idx : nat) (msgs : list message) :
  alternates idx msgs = true ->
  forall i m, msgs !! i = Some m ->
              msg_role m = if Nat.even (idx + i) then Human else AI.
Proof.
  revert idx. induction msgs as [|m0 msgs IH]; intros idx H i m Hi.
  - discriminate Hi.
  - simpl in H. apply andb_prop in H as [Hr Hrest].
    destruct i as [|i]; simpl in Hi.
    + injection Hi as <-. rewrite Nat.add_0_r. now apply role_eqb_eq.
    + replace (idx + S i) with (S idx + i) by lia. now apply (IH (S idx)).
Qed.

Lemma alternates_parity (msgs : list message) :
  alternates 0 msgs = true -> parity_roles msgs.
Proof.
  intros H i m Hi. pose proof (alternates_lookup _ _ H i m Hi) as Hr.
  simpl in Hr. rewrite <- Nat.negb_even.
  destruct (Nat.even i); rewrite Hr; simpl; split; split; congruence.
Qed.

(** ** What restoration files, and where *)

Lemma forged_inv (history : value) (k : key) (t : snapshot) :
  forged history = inr (k, t) ->
  exists prompt_list prompts msgs d cvd config metadata new_version,
    subscript history "prompt_list" = inr prompt_list
    /\ py_iter prompt_list = inr prompts
    /\ forge_messages 0 prompts = inr msgs
    /\ subscript history "checkpoint" = inr (VDict d)
    /\ dict_get "channel_values" d = Some (VDict cvd)
    /\ subscript history "config" = inr config
    /\ subscript history "metadata" = inr metadata
    /\ subscript history "new_version" = inr new_version
    /\ thread_of config = inr k
    /\ t = Snapshot config (slotted d cvd msgs) metadata new_version.
Proof.
  unfold forged. intros H.
  apply ebind_inr in H as (pl & Hpl & H).
  apply ebind_inr in H as (prompts & Hit & H).
  apply ebind_inr in H as (msgs & Hforge & H).
  apply ebind_inr in H as (cp & Hcp & H).
  apply ebind_inr in H as (cp' & Hw & H).
  apply ebind_inr in H as (cfg & Hcfg & H).
  apply ebind_inr in H as (md & Hmd & H).
  apply ebind_inr in H as (nv & Hnv & H).
  apply ebind_inr in H as (k' & Hk & H).
  injection H as <- <-.
  apply with_messages_inv in Hw as (d & cvd & -> & Hcv & ->).
  exists pl, prompts, msgs, d, cvd, cfg, md, nv. repeat split; auto.
Qed.

Lemma restored_inv (history : value) (s : saver) :
  restored history = inr s ->
  (truthy history = false /\ s = ∅)
  \/ (truthy history = true
      /\ exists k t, forged history = inr (k, t) /\ s = {[ k := t ]}).
Proof.
  unfold restored. destruct (truthy history).
  - intros H. apply ebind_inr in H as ([k t] & Hf & H).
    injection H as <-. right. split; [reflexivity|]. eauto.
  - intros [= <-]. now left.
Qed.

(** The turns that a request finds committed under thread ["1"]: those
    forged from the [prompt_list] of a history filed under that thread, and
    none otherwise. *)
Lemma restored_committed (history : value) (s : saver)
    (committed : list message) :
  restored history = inr s ->
  committed_of s (KStr "1") = inr committed ->
  committed = []
  \/ (truthy history = true
      /\ exists prompts,
           ebind (subscript history "prompt_list") py_iter = inr prompts
           /\ forge_messages 0 prompts = inr committed).
Proof.
  intros Hs Hc. apply restored_inv in Hs as [[_ ->] | [Ht (k & t & Hf & ->)]].
  - unfold committed_of in Hc. rewrite lookup_empty in Hc.
    injection Hc as <-. now left.
  - apply forged_inv in Hf
      as (pl & prompts & msgs & d & cvd & cfg & md & nv
          & Hpl & Hit & Hforge & _ & _ & _ & _ & _ & _ & ->).
    unfold committed_of in Hc.
    destruct (decide (k = KStr "1")) as [->|Hne].
    + rewrite lookup_singleton_eq in Hc. simpl in Hc.
      rewrite checkpoint_messages_slotted in Hc. injection Hc as <-.
      right. split; [exact Ht|]. exists prompts. rewrite Hpl. simpl. auto.
    + rewrite lookup_singleton_ne in Hc by exact Hne.
      injection Hc as <-. now left.
Qed.

Section Parity.

Variable chat_invoke : list message -> option string.
Variable token_counter : list message -> nat.
Variable pretty_repr : message -> string.

Lemma extended_alternates (committed : list message) (text answer : string) :
  alternates 0 committed = true ->
  Nat.even (length committed) = true ->
  alternates 0 ((committed ++ [HumanMessage text]) ++ [AIMessage answer])
  = true.
Proof.
  intros Halt Heven. rewrite !alternates_app, Halt. simpl.
  rewrite length_app. simpl.
  rewrite Heven. replace (length committed + 1) with (S (length committed))
    by lia.
  rewrite Nat.even_succ, <- Nat.negb_even, Heven. reflexivity.
Qed.

(** C2, as amended: the decode step assigns roles purely by index parity:
    whenever it decodes a [prompt_list], the turns it builds have Human
    turns exactly at the even and Assistant turns exactly at the odd
    indices, and the string at index [i] becomes a [HumanMessage] when [i]
    is even and an [AIMessage] when [i] is odd.  For every [prompt_list]
    that the encode step produces on a request whose history is absent or
    falsy or carries a [prompt_list] that iterates over an even number of
    entries, the message at index [i] was a Human turn iff [i] is even and
    an Assistant turn iff [i] is odd. *)
Theorem roles_by_parity :
  (forall (prompts : list value) (msgs : list message),
      forge_messages 0 prompts = inr msgs ->
      parity_roles msgs
      /\ forall (i : nat) (text : string),
           prompts !! i = Some (VStr text) ->
           msgs !! i
           = Some (if Nat.even i then HumanMessage text else AIMessage text))
  /\ (forall (payload : value) (h h' : heap) (body : pydict),
        even_history payload = true ->
        main chat_invoke token_counter pretty_repr (inr payload) h = (h', inr body) ->
        exists (msgs : list message) (hist : pydict),
          snapshot_turns h' = inr msgs
          /\ dict_get "history" body = Some (VDict hist)
          /\ dict_get "prompt_list" hist = Some (texts msgs)
          /\ parity_roles msgs).
Proof.
  split.
  - intros prompts msgs H. split.
    + apply alternates_parity. now apply (forge_alternates 0 prompts).
    + intros i text Hi. apply forge_lookup in H as [_ H].
      destruct (H i) as (t & Hp & Hm).
      { now apply lookup_lt_Some in Hi. }
      rewrite Hp in Hi. injection Hi as ->. rewrite Hm. simpl.
      now destruct (Nat.even i).
  - intros payload h h' body Heven Hmain.
    rewrite main_eq in Hmain. injection Hmain as <- Hbody.
    destruct (served chat_invoke token_counter pretty_repr payload)
      as [tail res] eqn:Hs.
    simpl in Hbody. subst res.
    apply served_ok in Hs
      as (pd & text & s & committed & reply & d & cvd & nv
          & -> & _ & Hrest & Hc & Hcall & -> & ->).
    apply call_model_inv in Hcall as (prompt & answer & _ & _ & ->).
    exists ((committed ++ [HumanMessage text]) ++ [AIMessage answer]).
    eexists. split; [|split; [reflexivity|split; [reflexivity|]]].
    + unfold snapshot_turns. simpl. rewrite last_snoc.
      unfold committed_of. rewrite lookup_insert_eq. simpl.
      apply checkpoint_messages_slotted.
    + apply alternates_parity.
      destruct (restored_committed _ _ _ Hrest Hc)
        as [-> | (Ht & prompts & Hit & Hforge)]; [reflexivity|].
      apply extended_alternates.
      * now apply (forge_alternates 0 prompts).
      * apply forge_lookup in Hforge as [-> _].
        unfold even_history in Heven. now rewrite Ht, Hit in Heven.
Qed.

End Parity.

Lemma roles_by_parity_witness :
  parity_roles [HumanMessage "Hello"; AIMessage "re:Hello"]
  /\ snapshot_turns (fst (main echo_chat char_counter langchain_pretty_repr (inr hello) []))
     = inr [HumanMessage "Hello"; AIMessage "re:Hello"].
Proof.
  destruct (proj2 (roles_by_parity echo_chat char_counter langchain_pretty_repr)
              hello [] _ _ eq_refl eq_refl)
    as (msgs & hist & Hturns & _ & _ & Hpar).
  vm_compute in Hturns. injection Hturns as <-.
  split; [exact Hpar | vm_compute; reflexivity].
Defined.

(** C2, as stated, fails for the encode step: on a request that resumes a
    history whose [prompt_list] has one entry, the snapshot holds two Human
    turns in a row, so the message at index 1 was a Human turn. *)
Lemma odd_history_breaks_parity :
  ~ (forall (payload : value) (h' : heap) (body : pydict)
            (msgs : list message),
        main echo_chat char_counter langchain_pretty_repr (inr payload) [] = (h', inr body) ->
        snapshot_turns h' = inr msgs ->
        parity_roles msgs).
Proof.
  intros H.
  specialize (H (VDict [("human_input", VStr "And you?");
                        ("history", history_with (VStr "1") (VList [VStr "x"]))])
                _ _ [HumanMessage "x"; HumanMessage "And you?";
                     AIMessage "re:And you?"]
                eq_refl).
  specialize (H ltac:(vm_compute; reflexivity)).
  destruct (H 1 (HumanMessage "And you?") eq_refl) as [[Hodd _] _].
  specialize (Hodd eq_refl). discriminate Hodd.
Qed.

(** ** The decode/encode cycle *)

Lemma snapshot_history_inv (t : snapshot) (hist : pydict) :
  snapshot_history t = inr hist ->
  exists d cvd slot objs mdd,
    snap_checkpoint t = VDict d
    /\ dict_get "channel_values" d = Some (VDict cvd)
    /\ dict_get "messages" cvd = Some slot
    /\ as_messages slot = inr objs
    /\ snap_metadata t = VDict mdd
    /\ dict_has "writes" mdd = true
    /\ hist = [("config", snap_config t);
               ("checkpoint",
                VDict (dict_set "channel_values"
                         (VDict (dict_remove "messages" cvd)) d));
               ("prompt_list", texts objs);
               ("metadata", VDict (dict_remove "writes" mdd));
               ("new_version", snap_version t)].
Proof.
  unfold snapshot_history. intros H.
  apply ebind_inr in H as (cv & Hcv & H).
  apply ebind_inr in H as (slot & Hslot & H).
  apply ebind_inr in H as (objs & Hobjs & H).
  apply ebind_inr in H as (cv' & Hdel & H).
  apply ebind_inr in H as (cp' & Hset & H).
  apply ebind_inr in H as (md' & Hmd & H).
  injection H as <-.
  unfold subscript in Hcv.
  destruct (snap_checkpoint t) as [| | | | |d|] eqn:Ecp; try discriminate Hcv.
  destruct (dict_get "channel_values" d) as [x|] eqn:Ed; [|discriminate Hcv].
  injection Hcv as ->.
  unfold subscript in Hslot.
  destruct cv as [| | | | |cvd|]; try discriminate Hslot.
  destruct (dict_get "messages" cvd) as [x|] eqn:Em; [|discriminate Hslot].
  injection Hslot as ->.
  unfold del_item, dict_del, dict_has in Hdel. rewrite Em in Hdel.
  injection Hdel as <-. simpl in Hset. injection Hset as <-.
  unfold del_item, dict_del in Hmd.
  destruct (snap_metadata t) as [| | | | |mdd|] eqn:Emd; try discriminate Hmd.
  destruct (dict_has "writes" mdd) eqn:Ew; [|discriminate Hmd].
  injection Hmd as <-.
  exists d, cvd, slot, objs, mdd. repeat split; auto.
Qed.

Lemma forge_texts (idx : nat) (msgs : list message) :
  exists msgs',
    forge_messages idx (map (fun obj => VStr (content obj)) msgs) = inr msgs'
    /\ texts msgs' = texts msgs
    /\ (alternates idx msgs = true -> msgs' = msgs).
Proof.
  revert idx. induction msgs as [|m msgs IH]; intros idx.
  - exists []. repeat split; reflexivity.
  - destruct (IH (S idx)) as (msgs' & Hf & Ht & Ha).
    exists (Msg (if Nat.even idx then Human else AI) (content m) :: msgs').
    cbn [map forge_messages]. rewrite mod2_even, Hf. unfold new_message.
    split; [reflexivity|]. split.
    + unfold texts in *. simpl. injection Ht as ->. reflexivity.
    + cbn [alternates]. intros H. apply andb_prop in H as [Hr Hrest].
      apply role_eqb_eq in Hr. rewrite <- Hr, (Ha Hrest). now destruct m.
Qed.

Lemma dict_remove_idem (k : string) (d : pydict) :
  dict_remove k (dict_remove k d) = dict_remove k d.
Proof. apply dict_remove_absent, dict_get_remove. Qed.

(** C1, as amended: for every TransportableState [hist] that the encode of
    [post_processing] produces from a snapshot filed under thread ["1"],
    the decode of [init_state_graph] files under thread ["1"] a snapshot
    with the same [config] and [new_version], the metadata without its
    [writes], and a turn list with the texts of the original one, equal to
    the original turn list when that alternates Human, Assistant.  Encoding
    this snapshot again returns [hist] itself, entry for entry, once its
    metadata carries a [writes] field again, as it does after every run of
    the graph; with no new turn the encode raises [KeyError] on the
    [writes] field that was already stripped. *)
Theorem codec_round_trip (t : snapshot) (hist : pydict) (msgs : list message) :
  snapshot_history t = inr hist ->
  thread_of (snap_config t) = inr (KStr "1") ->
  checkpoint_messages (snap_checkpoint t) = inr msgs ->
  exists t' : snapshot,
    (forall h : heap,
        init_state_graph (VDict hist) h
        = (h ++ [{[ KStr "1" := t' ]}], inr (length h)))
    /\ snap_config t' = snap_config t
    /\ snap_version t' = snap_version t
    /\ del_item (snap_metadata t) "writes" = inr (snap_metadata t')
    /\ (exists msgs',
          checkpoint_messages (snap_checkpoint t') = inr msgs'
          /\ texts msgs' = texts msgs
          /\ (alternates 0 msgs = true -> msgs' = msgs))
    /\ snapshot_history t' = inl (KeyError "writes")
    /\ (forall w metadata,
          set_item (snap_metadata t') "writes" w = inr metadata ->
          snapshot_history
            (Snapshot (snap_config t') (snap_checkpoint t') metadata
               (snap_version t'))
          = inr hist).
Proof.
  intros Henc Hthread Hmsgs.
  apply snapshot_history_inv in Henc
    as (d & cvd & slot & objs & mdd & Ecp & Ed & Em & Hobjs & Emd & Ew & ->).
  assert (msgs = objs) as ->.
  { rewrite Ecp in Hmsgs. unfold checkpoint_messages, subscript in Hmsgs.
    rewrite Ed in Hmsgs. simpl in Hmsgs. rewrite Em in Hmsgs.
    simpl in Hmsgs. congruence. }
  destruct (forge_texts 0 objs) as (msgs' & Hf & Ht & Ha).
  exists (Snapshot (snap_config t)
            (slotted d (dict_remove "messages" cvd) msgs')
            (VDict (dict_remove "writes" mdd)) (snap_version t)).
  split; [|split; [reflexivity|split; [reflexivity|split; [|split; [|split]]]]].
  - intros h. rewrite init_state_graph_eq.
    match goal with
    | |- match ?r with _ => _ end = _ =>
        assert (r = inr {[ KStr "1" :=
                   Snapshot (snap_config t)
                     (slotted d (dict_remove "messages" cvd) msgs')
                     (VDict (dict_remove "writes" mdd)) (snap_version t) ]})
          as ->; [|reflexivity]
    end.
    unfold restored, forged. cbn [truthy].
    change (subscript (VDict _) "prompt_list") with (inr (B:=value) (A:=exn) (texts objs)).
    cbn [ebind]. unfold texts at 1. cbn [py_iter ebind]. rewrite Hf.
    cbn [ebind].
    match goal with
    | |- context [subscript (VDict ?h) "checkpoint"] =>
        change (subscript (VDict h) "checkpoint")
          with (inr (A:=exn)
                  (VDict (dict_set "channel_values"
                            (VDict (dict_remove "messages" cvd)) d)));
        change (subscript (VDict h) "config")
          with (inr (A:=exn) (snap_config t));
        change (subscript (VDict h) "metadata")
          with (inr (A:=exn) (VDict (dict_remove "writes" mdd)));
        change (subscript (VDict h) "new_version")
          with (inr (A:=exn) (snap_version t))
    end.
    cbn [ebind].
    unfold with_messages, subscript, set_item.
    rewrite dict_get_set_eq. cbn [ebind]. rewrite dict_set_set.
    rewrite Hthread. reflexivity.
  - simpl. unfold del_item, dict_del. rewrite Emd, Ew. reflexivity.
  - exists msgs'. simpl. rewrite checkpoint_messages_slotted. auto.
  - unfold snapshot_history, slotted, subscript. cbn [snap_checkpoint ebind].
    rewrite dict_get_set_eq. cbn [ebind]. rewrite dict_get_set_eq.
    cbn [ebind]. rewrite as_messages_list. cbn [ebind].
    unfold del_item, dict_del, dict_has. rewrite dict_get_set_eq.
    cbn [ebind set_item snap_metadata]. rewrite dict_get_remove. reflexivity.
  - intros w metadata Hset. simpl in Hset. injection Hset as <-.
    cbn [snap_config snap_checkpoint snap_version].
    rewrite (snapshot_history_slotted _ _ (VDict (dict_remove "writes" mdd))).
    + now rewrite dict_remove_idem, Ht.
    + unfold del_item, dict_del, dict_has. rewrite dict_get_set_eq.
      now rewrite dict_remove_set, dict_remove_idem.
Qed.

Lemma codec_round_trip_witness :
  exists t' : snapshot,
    init_state_graph (VDict hello_history) [] = ([{[ KStr "1" := t' ]}], inr 0)
    /\ checkpoint_messages (snap_checkpoint t') = inr hello_turns
    /\ snapshot_history t' = inl (KeyError "writes").
Proof.
  destruct (codec_round_trip hello_snapshot hello_history hello_turns
              eq_refl eq_refl eq_refl)
    as (t' & Hrestored & _ & _ & _ & (msgs' & Hturns & _ & Halt) & Hraise & _).
  rewrite (Halt eq_refl) in Hturns. exists t'.
  split; [exact (Hrestored []) | auto].
Defined.

(** C1, as stated, fails: the history that the service returns for [hello]
    is decoded, but the snapshot of [post_processing] that follows with no
    new turn does not return it: deleting the [writes] field, which the
    first encode already stripped, raises [KeyError]. *)
Lemma cycle_without_turn_raises :
  ~ (forall (t : snapshot) (hist : pydict) (r : value) (txt : string),
        snapshot_history t = inr hist ->
        thread_of (snap_config t) = inr (KStr "1") ->
        response_text langchain_pretty_repr r = inr txt ->
        snd (recycle langchain_pretty_repr (VDict hist) r)
        = inr [("response", VStr txt); ("history", VDict hist)]).
Proof.
  intros H.
  specialize (H hello_snapshot hello_history hello_response "re:Hello"
                eq_refl eq_refl eq_refl).
  vm_compute in H. discriminate H.
Qed.

(** ** Histories that restoration cannot read *)

Lemma forge_strings (idx : nat) (prompts : list value) (msgs : list message) :
  forge_messages idx prompts = inr msgs -> forallb is_string prompts = true.
Proof.
  revert idx msgs. induction prompts as [|p prompts IH]; intros idx msgs H.
  - reflexivity.
  - cbn [forge_messages] in H.
    apply ebind_inr in H as (m & Hm & H).
    apply ebind_inr in H as (ms & Hms & H).
    destruct p; try discriminate Hm. simpl. now apply (IH (S idx) ms).
Qed.

Lemma defective_not_restored (history : value) (s : saver) :
  truthy history = true ->
  defective_history history = true ->
  restored history <> inr s.
Proof.
  intros Ht Hdef Hs.
  apply restored_inv in Hs as [[Hf _] | [_ (k & t & Hf & _)]]; [congruence|].
  apply forged_inv in Hf
    as (pl & prompts & msgs & d & cvd & cfg & md & nv
        & Hpl & Hit & Hforge & Hcp & Hcv & _ & Hmd & _).
  unfold subscript in Hpl, Hcp, Hmd.
  destruct history as [| | | | |hd|]; try discriminate Hpl.
  unfold defective_history, dict_has in Hdef.
  destruct (dict_get "prompt_list" hd) as [x|]; [|discriminate Hpl].
  injection Hpl as ->.
  destruct (dict_get "checkpoint" hd) as [x|]; [|discriminate Hcp].
  injection Hcp as ->. rewrite Hcv in Hdef.
  destruct (dict_get "metadata" hd); [|discriminate Hmd].
  destruct pl; try discriminate Hit; discriminate Hdef.
Qed.

Section Malformed.

Variable chat_invoke : list message -> option string.
Variable token_counter : list message -> nat.
Variable pretty_repr : message -> string.

(** C4, as amended: for every request that carries its input and a
    non-empty history with one of these structural defects: the history is
    a string, a list, a number or a boolean instead of an object;
    [prompt_list] is missing or is a number, a boolean or [null];
    [checkpoint] is missing or has no object under [channel_values];
    [metadata] is missing; restoration raises an exception that nobody
    handles, and the request ends in HTTP 500 without a JSON body, after
    the checkpointer was allocated and before anything is filed in it. *)
Theorem defective_history_raises (pd : pydict) (x history : value) (h : heap) :
  dict_get "human_input" pd = Some x ->
  dict_get "history" pd = Some history ->
  truthy history = true ->
  defective_history history = true ->
  (exists e, init_state_graph history h = (h ++ [∅], inl e)
             /\ is_abort e = false)
  /\ dispatch chat_invoke token_counter pretty_repr (inr (VDict pd)) h
     = (h ++ [∅], Response 500 None).
Proof.
  intros Hin Hhist Ht Hdef.
  destruct (restored history) as [e|s] eqn:Hs.
  2: { exfalso. now apply (defective_not_restored history s). }
  assert (He : is_abort e = false) by now apply (unhandled_restored history).
  split; [exists e; rewrite init_state_graph_eq, Hs; auto|].
  unfold dispatch. rewrite main_eq.
  assert (served chat_invoke token_counter pretty_repr (VDict pd)
          = ([∅], inl e)) as ->.
  { unfold served. cbn [truthy contains ebind]. unfold dict_has.
    destruct pd as [|kv pd]; [discriminate Hin|].
    rewrite Hin, Hhist. cbn [ebind subscript]. rewrite Hhist, Hs.
    reflexivity. }
  simpl. destruct e; try discriminate He; reflexivity.
Qed.

End Malformed.

Lemma defective_history_raises_witness :
  dispatch echo_chat char_counter langchain_pretty_repr
    (inr (VDict [("human_input", VStr "Hello");
            ("history", VDict [("prompt_list", VList [VStr "x"])])])) []
  = ([∅], Response 500 None).
Proof.
  apply (defective_history_raises echo_chat char_counter langchain_pretty_repr
           [("human_input", VStr "Hello");
            ("history", VDict [("prompt_list", VList [VStr "x"])])]
           (VStr "Hello") (VDict [("prompt_list", VList [VStr "x"])]) []);
    reflexivity.
Defined.

(** C4, as stated, fails: a history without [checkpoint] is structurally
    invalid, and the request that carries it ends in an internal server
    error, not in HTTP 400. *)
Lemma invalid_history_not_400 :
  ~ (forall x history : value,
        invalid_history history = true ->
        status (snd (dispatch echo_chat char_counter langchain_pretty_repr
                       (inr (VDict [("human_input", x); ("history", history)])) []))
        = 400).
Proof.
  intros H.
  specialize (H (VStr "Hello") (VDict [("prompt_list", VList [VStr "x"])])
                eq_refl).
  vm_compute in H. discriminate H.
Qed.

(** ** A history filed under another thread *)

Lemma dict_get_remove_ne (k k' : string) (d : pydict) :
  k <> k' -> dict_get k (dict_remove k' d) = dict_get k d.
Proof.
  intros Hne. unfold dict_remove.
  induction d as [|[k0 v0] d IH]; simpl; [reflexivity|].
  destruct (String.eqb k' k0) eqn:E'; simpl.
  - apply String.eqb_eq in E' as <-.
    apply String.eqb_neq in Hne. now rewrite Hne.
  - now rewrite IH.
Qed.

Section Thread.

Variable chat_invoke : list message -> option string.
Variable token_counter : list message -> nat.
Variable pretty_repr : message -> string.

(** A run of the graph sees nothing but what is filed under thread ["1"]. *)
Lemma step_blind (s : saver) (input : value) :
  s !! KStr "1" = None ->
  match step chat_invoke token_counter s input graph_config,
        step chat_invoke token_counter ∅ input graph_config with
  | inr (s1, r1), inr (s2, r2) => r1 = r2 /\ s1 !! KStr "1" = s2 !! KStr "1"
  | inl e1, inl e2 => e1 = e2
  | _, _ => False
  end.
Proof.
  intros Hnone. unfold step. rewrite thread_of_graph_config.
  cbn [ebind]. rewrite Hnone, lookup_empty. cbn [ebind].
  destruct (subscript input "messages") as [e|x]; [reflexivity|].
  cbn [ebind]. destruct x; try reflexivity. cbn [ebind].
  destruct (call_model chat_invoke token_counter _) as [e|reply];
    [reflexivity|].
  cbn [ebind].
  destruct (with_messages empty_checkpoint _) as [e|cp]; [reflexivity|].
  cbn [ebind]. now rewrite !lookup_insert_eq.
Qed.

Lemma processed_slot (s1 s2 : saver) (r : value) :
  s1 !! KStr "1" = s2 !! KStr "1" ->
  processed pretty_repr s1 r graph_config = processed pretty_repr s2 r graph_config.
Proof.
  intros H. unfold processed. rewrite thread_of_graph_config.
  cbn [ebind]. now rewrite H.
Qed.

(** C9: restoration files the forged checkpoint under the thread that
    [history['config']] names, while the run of the graph and the final
    snapshot read thread ["1"] of the module-level [graph_config].  For
    every request whose history is restored without error and whose config
    names any other thread, nothing is committed under thread ["1"], and
    the response is the one of the same request without its history. *)
Theorem foreign_thread_invisible (pd : pydict) (x history config : value)
    (k : key) (s : saver) (h : heap) :
  dict_get "human_input" pd = Some x ->
  dict_get "history" pd = Some history ->
  truthy history = true ->
  subscript history "config" = inr config ->
  thread_of config = inr k ->
  k <> KStr "1" ->
  init_state_graph history [] = ([s], inr 0) ->
  (exists t, s = {[ k := t ]} /\ snap_config t = config)
  /\ committed_of s (KStr "1") = inr []
  /\ snd (dispatch chat_invoke token_counter pretty_repr (inr (VDict pd)) h)
     = snd (dispatch chat_invoke token_counter pretty_repr
              (inr (VDict (dict_remove "history" pd))) h).
Proof.
  intros Hin Hhist Ht Hcfg Hk Hne Hinit.
  assert (Hs : restored history = inr s).
  { rewrite init_state_graph_eq in Hinit.
    destruct (restored history); [discriminate Hinit|].
    now injection Hinit as ->. }
  pose proof Hs as Hs'.
  apply restored_inv in Hs' as [[Hf _] | [_ (k' & t & Hf & ->)]];
    [congruence|].
  apply forged_inv in Hf
    as (pl & prompts & msgs & d & cvd & cfg & md & nv
        & _ & _ & _ & _ & _ & Hcfg' & _ & _ & Hk' & ->).
  assert (cfg = config) as -> by congruence.
  assert (k' = k) as -> by congruence.
  assert (Hnone : ({[ k := Snapshot config (slotted d cvd msgs) md nv ]}
                     : saver) !! KStr "1" = None)
    by now apply lookup_singleton_ne.
  split; [eauto|]. split.
  { unfold committed_of. now rewrite Hnone. }
  unfold dispatch. rewrite !main_eq. cbn [snd].
  assert (Hin' : dict_get "human_input" (dict_remove "history" pd) = Some x)
    by (rewrite dict_get_remove_ne; [exact Hin | discriminate]).
  assert (served chat_invoke token_counter pretty_repr (VDict pd)
          = match step chat_invoke token_counter
                    {[ k := Snapshot config (slotted d cvd msgs) md nv ]}
                    (VDict [("messages", x)]) graph_config with
            | inl e => ([{[ k := Snapshot config (slotted d cvd msgs) md nv ]}],
                        inl e)
            | inr (s', r) => ([s'], processed pretty_repr s' r graph_config)
            end) as ->.
  { unfold served. cbn [truthy contains ebind]. unfold dict_has.
    destruct pd as [|kv pd]; [discriminate Hin|].
    rewrite Hin, Hhist. cbn [ebind subscript]. rewrite Hhist, Hs, Hin.
    reflexivity. }
  assert (served chat_invoke token_counter pretty_repr
            (VDict (dict_remove "history" pd))
          = match step chat_invoke token_counter ∅
                    (VDict [("messages", x)]) graph_config with
            | inl e => ([∅], inl e)
            | inr (s', r) => ([s'], processed pretty_repr s' r graph_config)
            end) as ->.
  { assert (Htr : truthy (VDict (dict_remove "history" pd)) = true).
    { destruct (dict_remove "history" pd);
        [discriminate Hin' | reflexivity]. }
    unfold served. rewrite Htr. cbn [contains ebind]. unfold dict_has.
    rewrite Hin', dict_get_remove.
    cbn [ebind subscript]. rewrite Hin'. reflexivity. }
  pose proof (step_blind _ (VDict [("messages", x)]) Hnone) as Hblind.
  destruct (step chat_invoke token_counter {[ k := _ ]} _ graph_config)
    as [e1|[s1 r1]];
    destruct (step chat_invoke token_counter ∅ _ graph_config)
      as [e2|[s2 r2]]; try contradiction.
  - subst e2. cbn [fst snd]. now destruct e1.
  - destruct Hblind as [-> Hslot]. cbn [fst snd].
    rewrite (processed_slot s1 s2 r2 Hslot).
    destruct (processed pretty_repr s2 r2 graph_config) as [e|b];
      [now destruct e | reflexivity].
Qed.

End Thread.

Lemma foreign_thread_invisible_witness :
  snd (dispatch echo_chat char_counter langchain_pretty_repr
         (inr (VDict [("human_input", VStr "And you?");
                 ("history",
                  history_with (VStr "2")
                    (VList [VStr "Hello"; VStr "re:Hello"]))])) [])
  = snd (dispatch echo_chat char_counter langchain_pretty_repr
           (inr (VDict [("human_input", VStr "And you?")])) []).
Proof.
  refine (proj2 (proj2
    (foreign_thread_invisible echo_chat char_counter langchain_pretty_repr
       [("human_input", VStr "And you?");
        ("history",
         history_with (VStr "2") (VList [VStr "Hello"; VStr "re:Hello"]))]
       (VStr "And you?")
       (history_with (VStr "2") (VList [VStr "Hello"; VStr "re:Hello"]))
       (VDict [("configurable", VDict [("thread_id", VStr "2")])])
       (KStr "2") _ []
       eq_refl eq_refl eq_refl eq_refl eq_refl _ eq_refl))).
  discriminate.
Defined.

(** ** The snapshot store of a request *)

Section Store.

Variable chat_invoke : list message -> option string.
Variable token_counter : list message -> nat.
Variable pretty_repr : message -> string.

(** C8, as amended: the handling of every request leaves the snapshot
    stores that existed before it as they were, and its response does not
    depend on them.  A request that is turned away with an HTTP error, by
    [request.get_json()] or by the guard of [main], allocates no store; any
    other request allocates at most one store of its own, the
    [MemorySaver()] of [init_state_graph].  On success that store is the
    one [init_state_graph] returned for the history of the request, changed
    only in the slot of the constant session id ["1"], which holds the
    snapshot filed with the module-level [graph_config].  No store is
    shared across requests, and nothing persists between calls. *)
Theorem request_store_is_fresh (get_json : exn + value) (h : heap) :
  fst (dispatch chat_invoke token_counter pretty_repr get_json h)
  = h ++ fst (dispatch chat_invoke token_counter pretty_repr get_json [])
  /\ snd (dispatch chat_invoke token_counter pretty_repr get_json h)
     = snd (dispatch chat_invoke token_counter pretty_repr get_json [])
  /\ length (fst (dispatch chat_invoke token_counter pretty_repr get_json []))
     <= 1
  /\ match snd (main chat_invoke token_counter pretty_repr get_json []) with
     | inl e =>
         if is_abort e
         then fst (dispatch chat_invoke token_counter pretty_repr get_json [])
              = []
         else True
     | inr _ =>
         exists (pd : pydict) (s0 : saver) (t : snapshot),
           get_json = inr (VDict pd)
           /\ init_state_graph (history_of pd) [] = ([s0], inr 0)
           /\ fst (dispatch chat_invoke token_counter pretty_repr get_json [])
              = [<[KStr "1" := t]> s0]
           /\ snap_config t = graph_config
     end.
Proof.
  destruct get_json as [e0|payload].
  { unfold dispatch. rewrite !main_turned_away.
    destruct e0; cbn [fst snd is_abort]; rewrite app_nil_r;
      repeat split; auto. }
  unfold dispatch. rewrite !main_eq.
  destruct (served chat_invoke token_counter pretty_repr payload)
    as [tail [e|b]] eqn:Hs; cbn [fst snd app].
  - assert (Hlen : length tail <= 1).
    { revert Hs. unfold served.
      repeat match goal with
             | |- context [match ?x with _ => _ end] => destruct x
             end; intros [= <- _]; simpl; lia. }
    assert (Habort : if is_abort e then tail = [] else True).
    { destruct (served_classified _ _ _ _ _ _ Hs) as [(-> & _ & ->) | ->];
        [reflexivity | exact I]. }
    destruct e; simpl in *; repeat split; auto.
  - apply served_ok in Hs
      as (pd & text & s & committed & reply & d & cvd & nv
          & -> & _ & Hrest & _ & _ & -> & _).
    simpl. repeat split; auto.
    exists pd, s. eexists. split; [reflexivity|].
    split; [rewrite init_state_graph_eq, Hrest; reflexivity|].
    split; reflexivity.
Qed.

End Store.

(** C8, as stated, fails: no store is shared across requests.  Whatever
    store the process holds already, the request [hello] succeeds without
    filing anything in it. *)
Lemma no_shared_session_slot :
  ~ (exists a : nat,
      forall (h h' : heap) (body : pydict),
        a < length h ->
        main echo_chat char_counter langchain_pretty_repr (inr hello) h = (h', inr body) ->
        exists (s : saver) (t : snapshot),
          h' !! a = Some s /\ s !! KStr "1" = Some t).
Proof.
  intros [a H].
  pose proof (main_eq echo_chat char_counter langchain_pretty_repr hello
                (replicate (S a) ∅)) as Hmain.
  destruct (served echo_chat char_counter langchain_pretty_repr hello)
    as [tail [e|b]] eqn:Hs; [vm_compute in Hs; discriminate Hs|].
  cbn [fst snd] in Hmain.
  assert (Hlt : a < length (replicate (S a) (∅ : saver)))
    by (rewrite length_replicate; lia).
  destruct (H _ _ _ Hlt Hmain) as (s & t & Hs' & Ht).
  rewrite lookup_app_l in Hs' by (rewrite length_replicate; lia).
  apply lookup_replicate in Hs' as [-> _].
  rewrite lookup_empty in Ht. discriminate Ht.
Qed.

(** ** The trimmed window *)

Section Trimming.

Variable token_counter : list message -> nat.

Lemma system_head_app (include_system : bool) (msgs head turns : list message) :
  system_head include_system msgs = (head, turns) -> msgs = head ++ turns.
Proof.
  unfold system_head. destruct msgs as [|m rest].
  - now intros [= <- <-].
  - destruct (include_system && role_eqb (msg_role m) System);
      now intros [= <- <-].
Qed.

Lemma last_window_some (max_tokens : nat) (start_on : role)
    (head msgs w : list message) :
  last_window token_counter max_tokens start_on head msgs = Some w ->
  w `suffix_of` msgs
  /\ (exists m rest, w = m :: rest /\ msg_role m = start_on)
  /\ token_counter (head ++ w) <= max_tokens.
Proof.
  induction msgs as [|m rest IH]; simpl; [discriminate|].
  destruct (role_eqb (msg_role m) start_on
            && Nat.leb (token_counter (head ++ m :: rest)) max_tokens) eqn:E.
  - intros [= <-]. apply andb_prop in E as [Hr Hle].
    apply role_eqb_eq in Hr. apply Nat.leb_le in Hle.
    split; [reflexivity|]. split; [eauto | exact Hle].
  - intros H. destruct (IH H) as (Hsuf & Hstart & Hle).
    split; [now apply suffix_cons_r | auto].
Qed.

Lemma last_window_none (max_tokens : nat) (start_on : role)
    (head msgs : list message) :
  last_window token_counter max_tokens start_on head msgs = None ->
  forall m rest,
    (m :: rest) `suffix_of` msgs ->
    msg_role m = start_on ->
    max_tokens < token_counter (head ++ m :: rest).
Proof.
  induction msgs as [|m0 msgs IH]; simpl; intros H m rest Hsuf Hr.
  - apply suffix_nil_inv in Hsuf. discriminate Hsuf.
  - destruct (role_eqb (msg_role m0) start_on
              && Nat.leb (token_counter (head ++ m0 :: msgs)) max_tokens)
      eqn:E; [discriminate H|].
    apply suffix_cons_inv in Hsuf as [Heq | Hsuf]; [|now apply IH].
    injection Heq as -> ->.
    apply andb_false_iff in E as [E | E].
    + rewrite Hr in E. now destruct start_on.
    + apply Nat.leb_gt in E. exact E.
Qed.

(** C5, as amended: for every turn history whose token count exceeds 500,
    the trimming pass of [pre_processing] either fails with
    [TrimmingInfeasible], when no suffix that starts on a Human turn fits
    the budget, or retains, after the system message that opens the
    history if there is one, a proper suffix of whole turns that starts on
    a Human turn and fits, together with that kept system message, within
    the 500-token budget; no Assistant-first window is produced.  The fixed
    system instruction is put before the trimmed turns by [pre_processing]
    afterwards and is not counted against the budget. *)
Theorem trimmed_window (history : list message) :
  500 < token_counter history ->
  exists head turns : list message,
    history = head ++ turns
    /\ head = match history with
              | m :: _ => if role_eqb (msg_role m) System then [m] else []
              | [] => []
              end
    /\ match pre_processing token_counter history with
       | inr prompt =>
           exists window,
             prompt = Msg System system_instruction :: head ++ window
             /\ window `suffix_of` turns
             /\ window <> turns
             /\ (exists m rest, window = m :: rest /\ msg_role m = Human)
             /\ token_counter (head ++ window) <= 500
       | inl e =>
           e = TrimmingInfeasible
           /\ forall m rest,
                (m :: rest) `suffix_of` turns ->
                msg_role m = Human ->
                500 < token_counter (head ++ m :: rest)
       end.
Proof.
  intros Hover.
  destruct (system_head true history) as [head turns] eqn:Hsplit.
  pose proof (system_head_app _ _ _ _ Hsplit) as Happ.
  exists head, turns. split; [exact Happ|]. split.
  { unfold system_head in Hsplit. destruct history as [|m rest].
    - now injection Hsplit as <- _.
    - cbn [andb] in Hsplit.
      destruct (role_eqb (msg_role m) System); now injection Hsplit as <- _. }
  unfold pre_processing, trim_messages. rewrite Hsplit.
  destruct (last_window token_counter 500 Human head turns) as [w|] eqn:Hw;
    cbn [ebind].
  - apply last_window_some in Hw as (Hsuf & Hstart & Hle).
    exists w. repeat split; auto.
    intros ->. rewrite <- Happ in Hle. lia.
  - split; [reflexivity|]. now apply last_window_none.
Qed.

End Trimming.

Lemma trimmed_window_witness :
  exists window,
    pre_processing char_counter long_history
    = inr (Msg System system_instruction :: window)
    /\ window `suffix_of` long_history
    /\ (exists m rest, window = m :: rest /\ msg_role m = Human)
    /\ char_counter window <= 500.
Proof.
  assert (Hover : 500 < char_counter long_history) by (vm_compute; lia).
  destruct (trimmed_window char_counter long_history Hover)
    as (head & turns & Happ & Hhead & H).
  cbn [long_history HumanMessage msg_role role_eqb] in Hhead. subst head.
  cbn [app] in Happ. subst turns.
  assert (E : pre_processing char_counter long_history
              = inr [Msg System system_instruction; HumanMessage "hi"])
    by (vm_compute; reflexivity).
  rewrite E in H.
  destruct H as (window & Hp & Hsuf & _ & Hstart & Hle).
  exists window. injection Hp as <-. auto.
Defined.

(** C5, as stated, fails: what is kept does not fit the budget together
    with the system instruction.  On a history whose newest Human turn has
    450 tokens, the prompt that [pre_processing] builds, the fixed system
    instruction and that turn, has 554 tokens. *)
Lemma instruction_outside_budget :
  ~ (forall history prompt : list message,
        500 < char_counter history ->
        pre_processing char_counter history = inr prompt ->
        char_counter prompt <= 500).
Proof.
  intros H.
  assert (Hover : 500 < char_counter wide_history) by (vm_compute; lia).
  eassert (Hprompt : pre_processing char_counter wide_history = inr _)
    by (vm_compute; reflexivity).
  specialize (H _ _ Hover Hprompt). vm_compute in H. lia.
Qed.

(** ** Runs of the service *)

Example hello_run :
  main echo_chat char_counter langchain_pretty_repr (inr hello) []
  = ([{[ KStr "1" := hello_snapshot ]}],
     inr [("response", VStr "re:Hello"); ("history", VDict hello_history)]).
Proof. vm_compute. reflexivity. Qed.

Example resumed_run :
  snd (dispatch echo_chat char_counter langchain_pretty_repr
         (inr (VDict [("human_input", VStr "And you?");
                 ("history", VDict hello_history)])) [])
  = Response 200
      (Some [("response", VStr "re:And you?");
             ("history",
              VDict [("config", graph_config);
                     ("checkpoint", VDict [("channel_values", VDict [])]);
                     ("prompt_list",
                      VList [VStr "Hello"; VStr "re:Hello";
                             VStr "And you?"; VStr "re:And you?"]);
                     ("metadata", VDict [("source", VStr "loop")]);
                     ("new_version", VNone)])]).
Proof. vm_compute. reflexivity. Qed.

Example string_prompt_list_accepted :
  status (snd (dispatch echo_chat char_counter langchain_pretty_repr
                 (inr (VDict [("human_input", VStr "Hello");
                         ("history", history_with (VStr "1") (VStr "ab"))]))
                 []))
  = 200.
Proof. vm_compute. reflexivity. Qed.

Example array_body_builds_graph :
  dispatch echo_chat char_counter langchain_pretty_repr
    (inr (VList [VStr "human_input"])) []
  = ([∅], Response 500 None).
Proof. vm_compute. reflexivity. Qed.

Example remote_down :
  dispatch down_chat char_counter langchain_pretty_repr (inr hello) []
  = ([∅], Response 500 None).
Proof. vm_compute. reflexivity. Qed.

Example second_request_starts_afresh :
  let h1 := fst (dispatch echo_chat char_counter langchain_pretty_repr (inr hello) []) in
  dispatch echo_chat char_counter langchain_pretty_repr
    (inr (VDict [("human_input", VStr "And you?")])) h1
  = (h1 ++ [{[ KStr "1" :=
                 Snapshot graph_config
                   (VDict [("channel_values",
                            VDict [("messages",
                                    VList [VMsg (HumanMessage "And you?");
                                           VMsg (AIMessage "re:And you?")])])])
                   (step_metadata (AIMessage "re:And you?")) VNone ]}],
     Response 200
       (Some [("response", VStr "re:And you?");
              ("history",
               VDict [("config", graph_config);
                      ("checkpoint", VDict [("channel_values", VDict [])]);
                      ("prompt_list",
                       VList [VStr "And you?"; VStr "re:And you?"]);
                      ("metadata", VDict [("source", VStr "loop")]);
                      ("new_version", VNone)])])).
Proof. vm_compute. reflexivity. Qed.

(** * Further properties of the handler and the codec *)

(** ** Which histories are restored *)

Lemma forge_total (idx : nat) (prompts : list value) :
  forallb is_string prompts = true ->
  exists msgs, forge_messages idx prompts = inr msgs.
Proof.
  revert idx. induction prompts as [|p prompts IH]; intros idx H.
  - exists []. reflexivity.
  - simpl in H. apply andb_prop in H as [Hp Hrest].
    destruct p as [| | |text| | |]; try discriminate Hp.
    destruct (IH (S idx) Hrest) as (msgs & Hmsgs).
    eexists. cbn [forge_messages]. rewrite Hmsgs. reflexivity.
Qed.

Lemma restorable_forged (hd : pydict) :
  restorable (VDict hd) = true ->
  truthy (VDict hd) = true ->
  exists ks, forged (VDict hd) = inr ks.
Proof.
  intros Hr Ht. unfold restorable in Hr. rewrite Ht in Hr. simpl in Hr.
  unfold dict_has in Hr.
  destruct (dict_get "prompt_list" hd) as [pl|] eqn:Epl; [|discriminate Hr].
  destruct (py_iter pl) as [e|prompts] eqn:Eit; [discriminate Hr|].
  destruct (forallb is_string prompts) eqn:Estr; [|discriminate Hr].
  destruct (dict_get "checkpoint" hd) as [cp|] eqn:Ecp; [|discriminate Hr].
  destruct cp as [| | | | |cd|]; try discriminate Hr.
  destruct (dict_get "channel_values" cd) as [cv|] eqn:Ecv;
    [|discriminate Hr].
  destruct cv as [| | | | |cvd|]; try discriminate Hr.
  destruct (dict_get "config" hd) as [cfg|] eqn:Ecfg; [|discriminate Hr].
  destruct (thread_of cfg) as [e|k] eqn:Ek; [discriminate Hr|].
  destruct (dict_get "metadata" hd) as [md|] eqn:Emd; [|discriminate Hr].
  destruct (dict_get "new_version" hd) as [nv|] eqn:Env; [|discriminate Hr].
  destruct (forge_total 0 prompts Estr) as (msgs & Hmsgs).
  eexists. unfold forged, subscript, with_messages, subscript, set_item.
  rewrite Epl. cbn [ebind]. rewrite Eit. cbn [ebind]. rewrite Hmsgs.
  cbn [ebind]. rewrite Ecp. cbn [ebind]. rewrite Ecv. cbn [ebind].
  rewrite Ecfg. cbn [ebind]. rewrite Emd. cbn [ebind]. rewrite Env.
  cbn [ebind]. rewrite Ek. cbn [ebind]. reflexivity.
Qed.

(** X2: among the histories whose [prompt_list] holds no entry other than
    strings, [init_state_graph] returns a compiled graph exactly for the
    falsy ones and for the objects whose [prompt_list] can be iterated,
    whose [checkpoint] has an object under [channel_values], whose [config]
    names a thread, and that have a [metadata] and a [new_version]; on
    every other one it raises. *)
Theorem init_state_graph_succeeds_iff (history : value) (h : heap) :
  string_prompts history = true ->
  (exists (h' : heap) (llm_handle : nat),
      init_state_graph history h = (h', inr llm_handle))
  <-> restorable history = true.
Proof.
  intros _. rewrite init_state_graph_eq. split.
  - intros (h' & a & H).
    destruct (restored history) as [e|s] eqn:Hs; [discriminate H|].
    apply restored_inv in Hs as [[Hf _] | [Ht (k & t & Hf & _)]].
    { unfold restorable. now rewrite Hf. }
    apply forged_inv in Hf
      as (pl & prompts & msgs & d & cvd & cfg & md & nv
          & Hpl & Hit & Hforge & Hcp & Hcv & Hcfg & Hmd & Hnv & Hk & _).
    unfold subscript in Hpl, Hcp, Hcfg, Hmd, Hnv.
    destruct history as [| | | | |hd|]; try discriminate Hpl.
    unfold restorable, dict_has. rewrite Ht. simpl.
    destruct (dict_get "prompt_list" hd); [|discriminate Hpl].
    injection Hpl as ->. rewrite Hit, (forge_strings _ _ _ Hforge).
    destruct (dict_get "checkpoint" hd); [|discriminate Hcp].
    injection Hcp as ->. rewrite Hcv.
    destruct (dict_get "config" hd); [|discriminate Hcfg].
    injection Hcfg as ->. rewrite Hk.
    destruct (dict_get "metadata" hd); [|discriminate Hmd].
    destruct (dict_get "new_version" hd); [|discriminate Hnv].
    reflexivity.
  - intros Hr. unfold restored.
    destruct (truthy history) eqn:Ht; [|eauto].
    destruct history as [| | | | |hd|];
      try (unfold restorable in Hr; rewrite Ht in Hr; discriminate Hr).
    destruct (restorable_forged hd Hr Ht) as (ks & ->). cbn [ebind]. eauto.
Qed.

Lemma init_state_graph_succeeds_iff_witness :
  exists (h' : heap) (llm_handle : nat),
    init_state_graph (VDict hello_history) [] = (h', inr llm_handle).
Proof.
  apply (init_state_graph_succeeds_iff (VDict hello_history) [] eq_refl).
  reflexivity.
Defined.

(** ** An empty history *)

Section EmptyHistory.

Variable chat_invoke : list message -> option string.
Variable token_counter : list message -> nat.
Variable pretty_repr : message -> string.

(** X3: a request whose [history] is falsy (null, an empty object, an empty
    list, an empty string, zero, false) is handled exactly like the same
    request without the key [history]: the same store is allocated and the
    same value is returned or the same exception raised. *)
Theorem falsy_history_is_no_history (pd : pydict) (history : value) (h : heap) :
  dict_get "history" pd = Some history ->
  truthy history = false ->
  main chat_invoke token_counter pretty_repr (inr (VDict pd)) h
  = main chat_invoke token_counter pretty_repr
      (inr (VDict (dict_remove "history" pd))) h.
Proof.
  intros Hhist Hfalsy. rewrite !main_eq.
  assert (served chat_invoke token_counter pretty_repr (VDict pd)
          = served chat_invoke token_counter pretty_repr
              (VDict (dict_remove "history" pd))) as ->; [|reflexivity].
  assert (Hnonempty : truthy (VDict pd) = true)
    by (destruct pd; [discriminate Hhist | reflexivity]).
  pose proof (dict_get_remove "history" pd) as Hh'.
  assert (Hin' : dict_get "human_input" (dict_remove "history" pd)
                 = dict_get "human_input" pd)
    by (apply dict_get_remove_ne; discriminate).
  destruct (dict_get "human_input" pd) as [x|] eqn:Hin.
  - assert (Htr : truthy (VDict (dict_remove "history" pd)) = true)
      by (destruct (dict_remove "history" pd);
          [discriminate Hin' | reflexivity]).
    unfold served. rewrite Hnonempty, Htr. cbn [contains ebind].
    unfold dict_has. rewrite Hin, Hin', Hhist, Hh'.
    cbn [ebind subscript]. rewrite Hhist, Hin, Hin'.
    unfold restored. rewrite Hfalsy. reflexivity.
  - unfold served. rewrite Hnonempty. cbn [contains].
    unfold dict_has. rewrite Hin, Hin'.
    now destruct (truthy (VDict (dict_remove "history" pd))).
Qed.

End EmptyHistory.

Lemma falsy_history_is_no_history_witness :
  main echo_chat char_counter langchain_pretty_repr
    (inr (VDict [("human_input", VStr "Hello"); ("history", VDict [])])) []
  = main echo_chat char_counter langchain_pretty_repr (inr hello) [].
Proof.
  apply (falsy_history_is_no_history echo_chat char_counter langchain_pretty_repr
           [("human_input", VStr "Hello"); ("history", VDict [])]
           (VDict []) []); reflexivity.
Defined.

(** ** Texts and roles across the codec *)

Lemma forge_contents (idx : nat) (prompts : list value) (msgs : list message) :
  forge_messages idx prompts = inr msgs ->
  map (fun obj => VStr (content obj)) msgs = prompts.
Proof.
  revert idx msgs. induction prompts as [|p prompts IH]; intros idx msgs H.
  - simpl in H. now injection H as <-.
  - cbn [forge_messages] in H.
    apply ebind_inr in H as (m & Hm & H).
    apply ebind_inr in H as (ms & Hms & H).
    injection H as <-.
    destruct p as [| | |text| | |]; try discriminate Hm.
    unfold new_message in Hm. injection Hm as <-.
    simpl. now rewrite (IH _ _ Hms).
Qed.

(** X4: the list comprehension of [post_processing] keeps the texts and
    drops the roles, the one of [init_state_graph] puts roles back by
    position.  So every list of strings survives decode then encode, and a
    turn list survives encode then decode exactly when it alternates Human,
    Assistant from a Human turn on. *)
Theorem texts_and_roles_round_trip :
  (forall (prompts : list value),
      forallb is_string prompts = true ->
      exists msgs,
        forge_messages 0 prompts = inr msgs
        /\ map (fun obj => VStr (content obj)) msgs = prompts)
  /\ (forall (msgs : list message),
        forge_messages 0 (map (fun obj => VStr (content obj)) msgs) = inr msgs
        <-> alternates 0 msgs = true).
Proof.
  split.
  - intros prompts Hstr. destruct (forge_total 0 prompts Hstr) as (msgs & H).
    exists msgs. split; [exact H | now apply (forge_contents 0)].
  - intros msgs. split.
    + apply forge_alternates.
    + intros Halt. destruct (forge_texts 0 msgs) as (msgs' & Hf & _ & Heq).
      now rewrite <- (Heq Halt) at 2.
Qed.

Lemma texts_and_roles_round_trip_witness :
  forge_messages 0 [VStr "Hello"; VStr "re:Hello"] = inr hello_turns.
Proof.
  apply (proj2 (proj2 texts_and_roles_round_trip hello_turns)). reflexivity.
Defined.

Lemma chars_strings (s : string) : forallb is_string (chars s) = true.
Proof. unfold chars. now induction (code_points s). Qed.

Lemma split_points_whole (s : string) :
  forallb is_cont (list_ascii_of_string (fst (split_points s))) = true
  /\ Forall (fun p => whole_point p = true /\ lead_point p = true)
       (snd (split_points s)).
Proof.
  induction s as [|c s [IHk IHp]]; [split; [reflexivity | constructor]|].
  cbn [split_points]. destruct (split_points s) as [k points].
  cbn [fst snd] in *. destruct (is_cont c) eqn:Ec; cbn [fst snd].
  - split; [|exact IHp]. simpl. now rewrite Ec, IHk.
  - split; [reflexivity|]. constructor; [|exact IHp].
    simpl. now rewrite Ec, IHk.
Qed.

(** X5: a [prompt_list] that is a string instead of a list is not turned
    away: [enumerate] walks its code points, and restoration forges one
    turn per code point, with roles by position.  The texts of the turns
    are the pieces of the string, in order; each piece is one byte with the
    continuation bytes after it, and every piece after the first opens
    with a byte that is no continuation byte. *)
Theorem string_prompt_list_split (s : string) :
  exists msgs,
    ebind (py_iter (VStr s)) (forge_messages 0) = inr msgs
    /\ join (map content msgs) = s
    /\ Forall (fun m => whole_point (content m) = true) msgs
    /\ Forall (fun m => lead_point (content m) = true) (tail msgs)
    /\ alternates 0 msgs = true.
Proof.
  cbn [py_iter ebind].
  destruct (forge_total 0 (chars s) (chars_strings s)) as (msgs & H).
  exists msgs. split; [exact H|].
  pose proof (forge_contents _ _ _ H) as Hc.
  assert (Hpoints : map content msgs = code_points s).
  { unfold chars in Hc.
    revert Hc. generalize (code_points s). clear H.
    induction msgs as [|m msgs IH]; intros [|p points] Hc;
      try discriminate Hc; [reflexivity|].
    simpl in Hc. injection Hc as Hm Hrest. simpl. rewrite Hm.
    f_equal. now apply IH. }
  split; [rewrite Hpoints; apply join_code_points|].
  assert (Hwhole : Forall (fun p => whole_point p = true) (code_points s)
                   /\ Forall (fun p => lead_point p = true)
                        (tail (code_points s))).
  { destruct (split_points_whole s) as [Hk Hp]. unfold code_points.
    destruct (split_points s) as [k points]. cbn [fst snd] in *.
    destruct k as [|c k].
    - split.
      + eapply Forall_impl; [exact Hp|]. now intros p [Hw _].
      + destruct points as [|p points]; [constructor|].
        apply Forall_inv_tail in Hp.
        eapply Forall_impl; [exact Hp|]. now intros q [_ Hl].
    - split.
      + constructor.
        * simpl in Hk. apply andb_prop in Hk as [_ Hk]. exact Hk.
        * eapply Forall_impl; [exact Hp|]. now intros p [Hw _].
      + eapply Forall_impl; [exact Hp|]. now intros q [_ Hl]. }
  rewrite <- Hpoints in Hwhole. destruct Hwhole as [Hw Hl].
  split; [now apply Forall_fmap in Hw|].
  split; [|now apply (forge_alternates 0 (chars s))].
  destruct msgs as [|m msgs]; [constructor|].
  simpl in Hl. now apply Forall_fmap in Hl.
Qed.

(** ** A resumed conversation *)

Section Resume.

Variable chat_invoke : list message -> option string.
Variable token_counter : list message -> nat.
Variable pretty_repr : message -> string.

(** X6: when a request resumes a history filed under thread ["1"] whose
    [prompt_list] is a list, and succeeds, the remote model was asked with
    the prompt built from the turns decoded from that list followed by the
    new input as a Human turn, and the returned [prompt_list] is the
    client's list followed by the new input and the reply. *)
Theorem resumed_conversation_grows (pd : pydict) (x history config : value)
    (pl : list value) (h h' : heap) (body : pydict) :
  dict_get "human_input" pd = Some x ->
  dict_get "history" pd = Some history ->
  subscript history "prompt_list" = inr (VList pl) ->
  subscript history "config" = inr config ->
  thread_of config = inr (KStr "1") ->
  main chat_invoke token_counter pretty_repr (inr (VDict pd)) h = (h', inr body) ->
  exists (text reply : string) (turns prompt : list message) (hist : pydict),
    x = VStr text
    /\ forge_messages 0 pl = inr turns
    /\ pre_processing token_counter (turns ++ [HumanMessage text]) = inr prompt
    /\ chat_invoke prompt = Some reply
    /\ dict_get "history" body = Some (VDict hist)
    /\ dict_get "prompt_list" hist
       = Some (VList (pl ++ [VStr text; VStr reply])).
Proof.
  intros Hin Hhist Hpl Hcfg Hk Hmain.
  rewrite main_eq in Hmain. injection Hmain as _ Hbody.
  destruct (served chat_invoke token_counter pretty_repr (VDict pd))
    as [tail res] eqn:Hs.
  simpl in Hbody. subst res.
  apply served_ok in Hs
    as (pd0 & text & s & committed & reply & d & cvd & nv
        & Hpd & Hin0 & Hrest & Hc & Hcall & _ & ->).
  injection Hpd as <-.
  rewrite Hin in Hin0. injection Hin0 as ->.
  unfold history_of in Hrest. rewrite Hhist in Hrest.
  apply restored_inv in Hrest as [[Hf _] | [_ (k & t & Hf & ->)]].
  { destruct history as [| | | | |hd|]; try discriminate Hpl.
    destruct hd; [discriminate Hpl | discriminate Hf]. }
  apply forged_inv in Hf
    as (pl' & prompts & msgs & d' & cvd' & cfg & md & nv'
        & Hpl' & Hit & Hforge & _ & _ & Hcfg' & _ & _ & Hk' & ->).
  rewrite Hpl in Hpl'. injection Hpl' as <-.
  simpl in Hit. injection Hit as <-.
  rewrite Hcfg in Hcfg'. injection Hcfg' as <-.
  rewrite Hk in Hk'. injection Hk' as <-.
  unfold committed_of in Hc. rewrite lookup_singleton_eq in Hc.
  simpl in Hc. rewrite checkpoint_messages_slotted in Hc.
  injection Hc as <-.
  apply call_model_inv in Hcall as (prompt & answer & Hpre & Hchat & ->).
  exists text, answer, msgs, prompt. eexists.
  split; [reflexivity|]. split; [exact Hforge|]. split; [exact Hpre|].
  split; [exact Hchat|]. split; [reflexivity|].
  simpl. unfold texts. rewrite !map_app, (forge_contents _ _ _ Hforge).
  now rewrite <- app_assoc.
Qed.

End Resume.

Lemma resumed_conversation_grows_witness :
  exists (text reply : string) (turns prompt : list message) (hist : pydict),
    VStr "And you?" = VStr text
    /\ forge_messages 0 [VStr "Hello"; VStr "re:Hello"] = inr turns
    /\ pre_processing char_counter (turns ++ [HumanMessage text]) = inr prompt
    /\ echo_chat prompt = Some reply
    /\ dict_get "history"
         [("response", VStr "re:And you?");
          ("history",
           VDict [("config", graph_config);
                  ("checkpoint", VDict [("channel_values", VDict [])]);
                  ("prompt_list",
                   VList [VStr "Hello"; VStr "re:Hello";
                          VStr "And you?"; VStr "re:And you?"]);
                  ("metadata", VDict [("source", VStr "loop")]);
                  ("new_version", VNone)])]
       = Some (VDict hist)
    /\ dict_get "prompt_list" hist
       = Some (VList ([VStr "Hello"; VStr "re:Hello"]
                        ++ [VStr text; VStr reply])).
Proof.
  apply (resumed_conversation_grows echo_chat char_counter langchain_pretty_repr
           [("human_input", VStr "And you?"); ("history", VDict hello_history)]
           (VStr "And you?") (VDict hello_history) graph_config
           [VStr "Hello"; VStr "re:Hello"] []
           (fst (main echo_chat char_counter langchain_pretty_repr
                   (inr (VDict [("human_input", VStr "And you?");
                           ("history", VDict hello_history)])) []))
           _ eq_refl eq_refl eq_refl eq_refl eq_refl).
  vm_compute. reflexivity.
Defined.

(** ** A first request *)

Section Fresh.

Variable chat_invoke : list message -> option string.
Variable token_counter : list message -> nat.
Variable pretty_repr : message -> string.

Lemma step_fresh (text : string) :
  step chat_invoke token_counter ∅ (VDict [("messages", VStr text)])
    graph_config
  = match call_model chat_invoke token_counter [HumanMessage text] with
    | inr reply =>
        inr (<[KStr "1" :=
                 Snapshot graph_config
                   (slotted [("channel_values", VDict [])] []
                      [HumanMessage text; reply])
                   (step_metadata reply) VNone]> ∅,
             VDict [("messages",
                     VList (map VMsg ([HumanMessage text] ++ [reply])))])
    | inl e => inl e
    end.
Proof.
  unfold step. rewrite thread_of_graph_config. cbn [ebind].
  rewrite lookup_empty. cbn [ebind subscript dict_get String.eqb Ascii.eqb
                              Bool.eqb app].
  destruct (call_model chat_invoke token_counter [HumanMessage text])
    as [e|reply]; reflexivity.
Qed.

(** X7: a request that is an object with a string under [human_input] and
    without [history] fails only when the model node fails (the trimmer
    finds no window, or the remote model does not answer), and then with
    HTTP 500; otherwise it is answered with HTTP 200, the pretty-printed
    reply without its first 82 characters as [response], and a
    [prompt_list] of exactly the input and the reply. *)
Theorem fresh_request (pd : pydict) (text : string) (h : heap) :
  dict_get "human_input" pd = Some (VStr text) ->
  dict_get "history" pd = None ->
  match call_model chat_invoke token_counter [HumanMessage text] with
  | inr reply =>
      exists (response : string) (hist : pydict),
        snd (dispatch chat_invoke token_counter pretty_repr (inr (VDict pd)) h)
        = Response 200
            (Some [("response", VStr response); ("history", VDict hist)])
        /\ code_points response = drop 82 (code_points (pretty_repr reply))
        /\ dict_get "prompt_list" hist
           = Some (VList [VStr text; VStr (content reply)])
  | inl _ =>
      snd (dispatch chat_invoke token_counter pretty_repr (inr (VDict pd)) h)
      = Response 500 None
  end.
Proof.
  intros Hin Hnone. unfold dispatch. rewrite main_eq.
  assert (Hs : served chat_invoke token_counter pretty_repr (VDict pd)
          = match step chat_invoke token_counter ∅
                    (VDict [("messages", VStr text)]) graph_config with
            | inl e => ([∅], inl e)
            | inr (s', r) => ([s'], processed pretty_repr s' r graph_config)
            end).
  { unfold served.
    assert (truthy (VDict pd) = true) as ->
      by (destruct pd; [discriminate Hin | reflexivity]).
    cbn [contains ebind]. unfold dict_has. rewrite Hin, Hnone.
    cbn [ebind subscript]. rewrite Hin. reflexivity. }
  rewrite Hs, step_fresh.
  pose proof (unhandled_call_model chat_invoke token_counter
                [HumanMessage text]) as Hun.
  destruct (call_model chat_invoke token_counter [HumanMessage text])
    as [e|reply].
  - specialize (Hun e eq_refl). cbn [fst snd].
    destruct e; try discriminate Hun; reflexivity.
  - unfold processed. rewrite thread_of_graph_config. cbn [ebind].
    rewrite lookup_insert_eq.
    rewrite (snapshot_history_slotted _ _ (VDict [("source", VStr "loop")]))
      by reflexivity.
    cbn [ebind]. rewrite response_text_newest. cbn [ebind fst snd].
    eexists. eexists. split; [reflexivity|].
    split; [apply code_points_str_drop | reflexivity].
Qed.

End Fresh.

Lemma fresh_request_witness :
  exists (response : string) (hist : pydict),
    snd (dispatch echo_chat char_counter langchain_pretty_repr (inr hello) [])
    = Response 200 (Some [("response", VStr response);
                          ("history", VDict hist)])
    /\ code_points response
       = drop 82 (code_points (langchain_pretty_repr (AIMessage "re:Hello")))
    /\ dict_get "prompt_list" hist
       = Some (VList [VStr "Hello"; VStr "re:Hello"]).
Proof.
  exact (fresh_request echo_chat char_counter langchain_pretty_repr
           [("human_input", VStr "Hello")] "Hello" [] eq_refl eq_refl).
Defined.

(** ** What the snapshot carries *)

Lemma dict_get_set_ne (k k' : string) (v : value) (d : pydict) :
  k <> k' -> dict_get k (dict_set k' v d) = dict_get k d.
Proof.
  intros Hne. apply String.eqb_neq in Hne.
  induction d as [|[k0 v0] d IH]; simpl.
  - now rewrite Hne.
  - destruct (String.eqb k' k0) eqn:E'; simpl.
    + apply String.eqb_eq in E' as <-. now rewrite Hne.
    + now rewrite IH.
Qed.

(** X8: the history that [post_processing] builds has the five keys
    [config], [checkpoint], [prompt_list], [metadata], [new_version], in
    this order; [config] and [new_version] are those of the snapshot; the
    checkpoint has no [messages] under [channel_values] and the metadata no
    [writes], and every other entry of the checkpoint, of its
    [channel_values] and of the metadata is the one of the snapshot. *)
Theorem snapshot_strips_transients (t : snapshot) (hist : pydict) :
  snapshot_history t = inr hist ->
  map fst hist
  = ["config"; "checkpoint"; "prompt_list"; "metadata"; "new_version"]
  /\ dict_get "config" hist = Some (snap_config t)
  /\ dict_get "new_version" hist = Some (snap_version t)
  /\ exists cp cv md,
       dict_get "checkpoint" hist = Some (VDict cp)
       /\ dict_get "channel_values" cp = Some (VDict cv)
       /\ dict_get "messages" cv = None
       /\ dict_get "metadata" hist = Some (VDict md)
       /\ dict_get "writes" md = None
       /\ (forall k, k <> "channel_values" ->
             subscript (VDict cp) k = subscript (snap_checkpoint t) k)
       /\ (forall k, k <> "messages" ->
             subscript (VDict cv) k
             = ebind (subscript (snap_checkpoint t) "channel_values")
                     (fun c => subscript c k))
       /\ (forall k, k <> "writes" ->
             subscript (VDict md) k = subscript (snap_metadata t) k).
Proof.
  intros H.
  apply snapshot_history_inv in H
    as (d & cvd & slot & objs & mdd & Ecp & Ed & Em & Hobjs & Emd & Ew & ->).
  split; [reflexivity|]. split; [reflexivity|]. split; [reflexivity|].
  exists (dict_set "channel_values" (VDict (dict_remove "messages" cvd)) d),
         (dict_remove "messages" cvd), (dict_remove "writes" mdd).
  split; [reflexivity|]. split; [apply dict_get_set_eq|].
  split; [apply dict_get_remove|]. split; [reflexivity|].
  split; [apply dict_get_remove|]. split; [|split].
  - intros k Hk. rewrite Ecp. unfold subscript.
    now rewrite dict_get_set_ne.
  - intros k Hk. rewrite Ecp. unfold subscript at 2. rewrite Ed.
    cbn [ebind]. unfold subscript. now rewrite dict_get_remove_ne.
  - intros k Hk. rewrite Emd. unfold subscript.
    now rewrite dict_get_remove_ne.
Qed.

Lemma snapshot_strips_transients_witness :
  map fst hello_history
  = ["config"; "checkpoint"; "prompt_list"; "metadata"; "new_version"]
  /\ dict_get "config" hello_history = Some graph_config.
Proof.
  destruct (snapshot_strips_transients hello_snapshot hello_history eq_refl)
    as (Hkeys & Hconfig & _).
  split; [exact Hkeys | exact Hconfig].
Defined.

(** ** The snapshot after a run of the graph *)

Section AfterRun.

Variable chat_invoke : list message -> option string.
Variable token_counter : list message -> nat.
Variable pretty_repr : message -> string.

Lemma invoke_at (h : heap) (a : nat) (s : saver) (input config : value) :
  h !! a = Some s ->
  invoke chat_invoke token_counter a input config h =
    match step chat_invoke token_counter s input config with
    | inr (s', r) => (<[a := s']> h, inr r)
    | inl e => (h, inl e)
    end.
Proof.
  intros Hlook.
  unfold invoke, step, saver_get_tuple, saver_put, bind, lift, ret.
  set (commit := with_messages).
  destruct (thread_of config) as [e|k]; [reflexivity|]. simpl.
  rewrite Hlook.
  destruct (s !! k) as [t|]; simpl.
  - destruct (checkpoint_messages (snap_checkpoint t)) as [e|c];
      [reflexivity|]. simpl.
    destruct (subscript input "messages") as [e|x]; [reflexivity|]. simpl.
    destruct x; try reflexivity. simpl.
    destruct (call_model _ _ _) as [e|reply]; [reflexivity|]. simpl.
    destruct (commit _ _) as [e|cp]; [reflexivity|]. simpl.
    rewrite Hlook. reflexivity.
  - destruct (subscript input "messages") as [e|x]; [reflexivity|]. simpl.
    destruct x; try reflexivity. simpl.
    destruct (call_model _ _ _) as [e|reply]; [reflexivity|]. simpl.
    rewrite Hlook. reflexivity.
Qed.

Lemma post_processing_at (h : heap) (a : nat) (s : saver) (r config : value) :
  h !! a = Some s ->
  post_processing pretty_repr r a config h = (h, processed pretty_repr s r config).
Proof.
  intros Hlook.
  unfold post_processing, processed, saver_get_tuple, bind, lift, ret, raise.
  destruct (thread_of config) as [e|k]; [reflexivity|]. simpl.
  rewrite Hlook.
  destruct (s !! k) as [t|]; [|reflexivity].
  destruct (snapshot_history t) as [e|hist]; [reflexivity|]. simpl.
  destruct (response_text pretty_repr r) as [e|txt]; reflexivity.
Qed.

(** X9: once the run of the graph has returned, [post_processing] cannot
    fail: on the result of [invoke] and the same compiled graph it finds
    the snapshot under [graph_config], changes no store, and returns a
    dictionary with a [response] and a [history]. *)
Theorem snapshot_follows_run (llm_handle : nat) (x r : value) (h h1 : heap) :
  invoke chat_invoke token_counter llm_handle (VDict [("messages", x)])
    graph_config h = (h1, inr r) ->
  exists (response : string) (hist : pydict),
    post_processing pretty_repr r llm_handle graph_config h1
    = (h1, inr [("response", VStr response); ("history", VDict hist)]).
Proof.
  intros Hrun.
  destruct (h !! llm_handle) as [s|] eqn:Hlook.
  - rewrite (invoke_at _ _ _ _ _ Hlook) in Hrun.
    destruct (step chat_invoke token_counter s _ graph_config)
      as [e|[s' r']] eqn:Hstep; [discriminate Hrun|].
    injection Hrun as <- <-.
    apply step_ok in Hstep
      as (text & committed & reply & d & cvd & nv & -> & _ & _ & -> & ->).
    assert (Hlt : llm_handle < length h) by now apply lookup_lt_Some in Hlook.
    rewrite (post_processing_at _ _ _ _ _
               (list_lookup_insert_eq h llm_handle _ Hlt)).
    unfold processed. rewrite thread_of_graph_config. cbn [ebind].
    rewrite lookup_insert_eq.
    rewrite (snapshot_history_slotted _ _ (VDict [("source", VStr "loop")]))
      by reflexivity.
    cbn [ebind]. rewrite response_text_newest. cbn [ebind]. eauto.
  - exfalso. revert Hrun.
    unfold invoke, saver_get_tuple, bind. rewrite thread_of_graph_config.
    rewrite Hlook. discriminate.
Qed.

End AfterRun.

Lemma snapshot_follows_run_witness :
  exists (response : string) (hist : pydict),
    post_processing langchain_pretty_repr hello_response 0 graph_config
      [{[ KStr "1" := hello_snapshot ]}]
    = ([{[ KStr "1" := hello_snapshot ]}],
       inr [("response", VStr response); ("history", VDict hist)]).
Proof.
  apply (snapshot_follows_run echo_chat char_counter langchain_pretty_repr
           0 (VStr "Hello") hello_response [∅]).
  vm_compute. reflexivity.
Defined.

(** ** Restoration files everything or nothing *)

(** X10: [memory.put] is the last step of the restoration, so a history
    that makes [init_state_graph] raise leaves nothing half-restored: the
    checkpointer that was allocated for it is empty, the stores that
    existed before are as they were, and the exception is one that nobody
    handles. *)
Theorem failed_restoration_files_nothing (history : value) (h h' : heap)
    (e : exn) :
  init_state_graph history h = (h', inl e) ->
  h' = h ++ [∅] /\ is_abort e = false.
Proof.
  rewrite init_state_graph_eq.
  destruct (restored history) as [e0|s] eqn:Hs; [|discriminate].
  intros [= <- <-]. split; [reflexivity|].
  now apply (unhandled_restored history).
Qed.

Lemma failed_restoration_files_nothing_witness :
  fst (init_state_graph (VDict [("prompt_list", VList [VStr "x"])]) [])
  = [] ++ [∅].
Proof.
  apply (failed_restoration_files_nothing
           (VDict [("prompt_list", VList [VStr "x"])]) [] _
           (KeyError "checkpoint")).
  reflexivity.
Defined.
